(** * Home Assistant MCP server: tool handlers and HTTP client adapter

    A shallow embedding of [ha-mcp-server/src/ha-client.ts] (the two
    request functions) and of the handlers of [ha-mcp-server/src/index.ts]
    that the specification's testable properties are about
    (ha_get_entities, ha_call_service, ha_restart, ha_reload_config,
    ha_get_logs, ha_get_history, ha_render_template), followed by those
    properties.

    Conventions of the embedding.
    - JavaScript strings are Rocq strings; template literals are
      concatenations.
    - A JavaScript number that reaches the handlers as an argument
      ([limit], [lines], [hours]) is modelled by an integer [Z]; on such
      values [ToIntegerOrInfinity] is the identity. The start boundary
      of ha_get_history is also computed on IEEE binary64 numbers
      ([Double.number], a rational or an infinity or NaN, with every
      operation rounded to the nearest double), which covers a
      fractional [hours]; the integer computation is its restriction to
      integral hours.
    - A tool result [{ content: [{ type: "text", text }] }] is modelled
      by its [text].
    - [await]ed calls run in the monad [M], which threads the list of
      requests handed to [fetch] and propagates thrown values. The
      abort timer of a request is recorded in the request; a call that
      it aborts is a rejected [fetch]. *)

From Stdlib Require Import ZArith Lia String Ascii List.
From Stdlib Require Import QArith Qround Qabs Qpower Lqa.
From stdpp Require Import base strings list gmap pretty sorting.

#[local] Set Warnings "-register-all".
#[local] Open Scope string_scope.
#[local] Open Scope Z_scope.

(* ================================================================== *)
(** ** JavaScript values and built-ins used by the handlers *)

Module Js.

(** JSON values as produced by [response.json()] and accepted by
    [JSON.stringify]; also the [unknown] of the TypeScript signatures. *)
Inductive JsValue :=
| JNull
| JBool (b : bool)
| JNum (n : Z)
| JStr (s : string)
| JArr (items : list JsValue)
| JObj (props : gmap string JsValue).

(** The line feed written ["\n"] in the source. *)
Definition LF : string := String "010"%char "".

(** ToBoolean. *)
Definition truthy (v : JsValue) : bool :=
  match v with
  | JNull => false
  | JBool b => b
  | JNum n => negb (n =? 0)
  | JStr s => negb (String.eqb s "")
  | JArr _ | JObj _ => true
  end.

(** ToBoolean of a string, as in [if (domain)]. *)
Definition truthy_str (s : string) : bool := negb (String.eqb s "").

(** [Array.prototype.join]. *)
Definition join (sep : string) (l : list string) : string := String.concat sep l.

(** The double nearest to a non-negative integer (ties to even). *)
Definition round_double (x : Z) : Z :=
  let bits := Z.log2 x + 1 in
  if bits <=? 53 then x
  else
    let sh := bits - 53 in
    let q := Z.shiftr x sh in
    let r := x - Z.shiftl q sh in
    let half := Z.shiftl 1 (sh - 1) in
    let q' := if (half <? r) || ((r =? half) && Z.odd q) then q + 1 else q in
    Z.shiftl q' sh.

(** The number of decimal digits of a non-negative integer. *)
Definition digits10 (x : Z) : Z := Z.of_nat (String.length (pretty x)).

(** Among the integers with at most [k] significant decimal digits
    whose double is [x], the one closest to [x] (the even one on a
    tie), if there is any. *)
Definition candidate (x k : Z) : option Z :=
  let j := digits10 x - k in
  if j <? 0 then Some x
  else
    let unit := 10 ^ j in
    let s := x / unit in
    let lo := s * unit in
    let hi := lo + unit in
    match round_double lo =? x, round_double hi =? x with
    | true, true =>
        if x - lo <? hi - x then Some lo
        else if hi - x <? x - lo then Some hi
        else if Z.even s then Some lo else Some hi
    | true, false => Some lo
    | false, true => Some hi
    | false, false => None
    end.

(** The integer with the fewest significant digits whose double is
    [x]: seventeen digits always suffice for a double. *)
Fixpoint shortest (x k : Z) (fuel : nat) : Z :=
  match fuel with
  | O => x
  | S fuel' =>
      match candidate x k with
      | Some v => v
      | None => shortest x (k + 1) fuel'
      end
  end.

(** A digit string without its trailing zeros. *)
Fixpoint strip_zeros (s : string) : string :=
  match s with
  | EmptyString => ""
  | String c rest =>
      match strip_zeros rest with
      | EmptyString => if Ascii.eqb c "0" then "" else String c ""
      | rest' => String c rest'
      end
  end.

(** The exponential form [d.ddde+x]. *)
Definition exponential (v : Z) : string :=
  let digits := pretty v in
  let n := Z.of_nat (String.length digits) in
  match strip_zeros digits with
  | EmptyString => "0"
  | String d EmptyString => String d "" ++ "e+" ++ pretty (n - 1)
  | String d rest => String d ("." ++ rest) ++ "e+" ++ pretty (n - 1)
  end.

(** Number::toString for the Number that an integer denotes (the
    nearest double, as a JSON number is read): all digits up to 2^53;
    beyond, the shortest digits that identify the double, followed by
    zeros when there are at most 21 digits and in exponential form
    otherwise; an integer that rounds beyond the largest double
    denotes an infinity. *)
Definition number_to_string (n : Z) : string :=
  if Z.abs n <=? 2 ^ 53 then pretty n
  else
    let x := round_double (Z.abs n) in
    let body :=
      if 2 ^ 1024 <=? x then "Infinity"
      else
        let v := shortest x 1 17 in
        if digits10 v <=? 21 then pretty v else exponential v in
    if n <? 0 then "-" ++ body else body.

(** ToString, as applied by a template literal [`${v}`]. [null] and
    [undefined] elements of an array join as the empty string. *)
Fixpoint to_string (v : JsValue) : string :=
  match v with
  | JNull => "null"
  | JBool true => "true"
  | JBool false => "false"
  | JNum n => number_to_string n
  | JStr s => s
  | JArr items =>
      join "," (map (fun x => match x with JNull => "" | _ => to_string x end) items)
  | JObj _ => "[object Object]"
  end.

(** [String.prototype.startsWith]. *)
Definition startsWith (s searchString : string) : bool := String.prefix searchString s.

(** [String.prototype.includes]. *)
Fixpoint includes (s searchString : string) : bool :=
  String.prefix searchString s ||
  match s with
  | EmptyString => false
  | String _ rest => includes rest searchString
  end.

(** [String.prototype.split] with a one-character separator: the pieces
    between the separators, so that a text with k separators gives k+1
    pieces and the empty text gives one empty piece. *)
Fixpoint split (sep : ascii) (s : string) : list string :=
  match s with
  | EmptyString => [""]
  | String c rest =>
      if Ascii.eqb c sep then "" :: split sep rest
      else match split sep rest with
           | [] => [String c ""]
           | piece :: pieces => String c piece :: pieces
           end
  end.

(** The relative index of [Array.prototype.slice]: a negative argument
    counts from the end, and both are clamped to [0 .. len]. *)
Definition relative_index (len i : Z) : Z :=
  if i <? 0 then Z.max (len + i) 0 else Z.min i len.

(** [Array.prototype.slice(start, end)]; [end_ = None] is an omitted
    (undefined) second argument. *)
Definition slice {A} (l : list A) (start : Z) (end_ : option Z) : list A :=
  let len := Z.of_nat (length l) in
  let k := relative_index len start in
  let final := match end_ with
               | None => len
               | Some e => relative_index len e
               end in
  take (Z.to_nat (final - k)) (drop (Z.to_nat k) l).

End Js.
Import Js.

(* ================================================================== *)
(** ** Tool 1: ha_get_entities *)

(** An element of the array returned by [GET /states], as the handler's
    cast types it. *)
Record EntityState := {
  entity_id : string;
  state : string;
  attributes : gmap string JsValue;
  last_changed : string;
}.

Module GetEntities.

(** [filtered]: the states kept by the domain filter. An omitted
    [domain] is [None]; the empty string is falsy as well. *)
Definition filtered (states : list EntityState) (domain : option string)
  : list EntityState :=
  match domain with
  | Some d =>
      if truthy_str d
      then List.filter (fun s => startsWith (entity_id s) (d ++ ".")) states
      else states
  | None => states
  end.

Definition limited (states : list EntityState) (domain : option string) (limit : Z)
  : list EntityState :=
  slice (filtered states domain) 0 (Some limit).

(** [s.attributes.friendly_name || s.entity_id], interpolated. *)
Definition name_of (s : EntityState) : string :=
  match attributes s !! "friendly_name" with
  | Some v => if truthy v then to_string v else entity_id s
  | None => entity_id s
  end.

Definition line_of (s : EntityState) : string :=
  entity_id s ++ " — " ++ state s ++ " (" ++ name_of s ++ ")".

Definition lines (states : list EntityState) (domain : option string) (limit : Z)
  : list string :=
  map line_of (limited states domain limit).

(** The number interpolated in the header. *)
Definition header_count (states : list EntityState) (domain : option string) : nat :=
  match domain with
  | Some d => if truthy_str d then length (filtered states domain) else length states
  | None => length states
  end.

Definition header (states : list EntityState) (domain : option string) : string :=
  match domain with
  | Some d =>
      if truthy_str d
      then "Found " ++ pretty (length (filtered states domain)) ++ " " ++ d ++ " entities"
      else "Found " ++ pretty (length states) ++ " total entities"
  | None => "Found " ++ pretty (length states) ++ " total entities"
  end.

Definition showing (states : list EntityState) (domain : option string) (limit : Z)
  : string :=
  if (length (limited states domain limit) <? length (filtered states domain))%nat
  then " (showing first " ++ pretty (length (limited states domain limit)) ++ ")"
  else "".

(** The text returned for the states the upstream answered with. *)
Definition result_text (states : list EntityState) (domain : option string) (limit : Z)
  : string :=
  header states domain ++ showing states domain limit ++ ":" ++ LF ++ LF
    ++ join LF (lines states domain limit).

End GetEntities.

(** The text the handler returns once [await haApiRequest("/states")]
    has yielded [states]. *)
Definition ha_get_entities (states : list EntityState) (domain : option string)
    (limit : Z) : string :=
  GetEntities.result_text states domain limit.

(* ================================================================== *)
(** ** ha-client.ts: the HTTP client adapter *)

(** Values a handler can throw (a rejected promise of the [async]
    function). *)
Inductive Exn :=
| Error (message : string)
| TypeError (message : string)
| RangeError (message : string)
| Rejected (reason : string).

Inductive Outcome (A : Type) :=
| Returned (a : A)
| Thrown (e : Exn).
Arguments Returned {A} a.
Arguments Thrown {A} e.

(** The second argument of [fetch] together with its first. [body_json]
    is the value whose [JSON.stringify] is sent; [None] is [undefined].
    [abort_after] is the delay of the timer that aborts the signal. *)
Record FetchRequest := {
  url : string;
  method : string;
  authorization : string;
  content_type_header : string;
  body_json : option JsValue;
  abort_after : Z;
}.

(** What the adapter observes of a [Response]: [text ()] and [json ()]
    may each reject. *)
Record Response := {
  status : Z;
  content_type : option string;
  text : Outcome string;
  json : Outcome JsValue;
}.

Record RequestOptions := {
  opt_method : option string;
  opt_body : option JsValue;
  opt_timeout : option Z;
  opt_rawResponse : option bool;
}.

Definition no_options : RequestOptions :=
  {| opt_method := None; opt_body := None; opt_timeout := None; opt_rawResponse := None |}.

Definition HA_API_BASE : string := "http://supervisor/core/api".
Definition SUPERVISOR_API_BASE : string := "http://supervisor".

(** [response.ok]. *)
Definition ok (r : Response) : bool := (200 <=? status r) && (status r <=? 299).

(** Computations that issue requests: the requests issued so far are
    threaded through, a thrown value ends the computation. *)
Definition M (A : Type) : Type := list FetchRequest -> Outcome A * list FetchRequest.

Definition ret {A} (a : A) : M A := fun issued => (Returned a, issued).

Definition throw {A} (e : Exn) : M A := fun issued => (Thrown e, issued).

Definition bind {A B} (m : M A) (k : A -> M B) : M B :=
  fun issued =>
    match m issued with
    | (Returned a, issued') => k a issued'
    | (Thrown e, issued') => (Thrown e, issued')
    end.

(** [await p] for a promise that settles as [o]. *)
Definition await {A} (o : Outcome A) : M A := fun issued => (o, issued).

Notation "x <- m ;; k" := (bind m (fun x => k))
  (at level 100, m at next level, right associativity).

(* ------------------------------------------------------------------ *)
(** ** IEEE 754 binary64 arithmetic, as far as ha_get_history uses it *)

Module Double.
#[local] Open Scope Q_scope.

(** A Number value: a finite double is the rational it denotes (the
    sign of zero plays no part in what follows). *)
Inductive number :=
| Finite (q : Q)
| PosInf
| NegInf
| NaN.

(** The binary exponent of a positive rational: the [e] with
    [2^e <= q < 2^(e+1)]. *)
Definition exponent (q : Q) : Z :=
  let e0 := (Z.log2 (Qnum q) - Z.log2 (Zpos (Qden q)))%Z in
  if Qle_bool (2 ^ e0) q then e0 else (e0 - 1)%Z.

(** The distance between neighbouring doubles around [q]: 52 fraction
    bits, and the fixed spacing of the subnormal range below
    [2^-1022]. *)
Definition ulp (q : Q) : Q := 2 ^ (Z.max (exponent (Qabs q)) (-1022) - 52).

(** The nearest integer, ties to even. *)
Definition nearest_even (r : Q) : Z :=
  let f := Qfloor r in
  match Qcompare (r - inject_Z f) (1 # 2) with
  | Lt => f
  | Gt => (f + 1)%Z
  | Eq => if Z.even f then f else (f + 1)%Z
  end.

Definition nearest (q : Q) : Q := inject_Z (nearest_even (q / ulp q)) * ulp q.

(** Round to nearest, ties to even, with overflow to an infinity. *)
Definition round (q : Q) : number :=
  let y := nearest q in
  if Qle_bool (2 ^ 1024) y then PosInf
  else if Qle_bool y (- 2 ^ 1024) then NegInf
  else Finite y.

(** The operator [*]. *)
Definition mul (a b : number) : number :=
  match a, b with
  | NaN, _ | _, NaN => NaN
  | Finite x, Finite y => round (x * y)
  | Finite x, PosInf | PosInf, Finite x =>
      match Qcompare x 0 with Gt => PosInf | Lt => NegInf | Eq => NaN end
  | Finite x, NegInf | NegInf, Finite x =>
      match Qcompare x 0 with Gt => NegInf | Lt => PosInf | Eq => NaN end
  | PosInf, PosInf | NegInf, NegInf => PosInf
  | PosInf, NegInf | NegInf, PosInf => NegInf
  end.

(** The operator [-]. *)
Definition sub (a b : number) : number :=
  match a, b with
  | NaN, _ | _, NaN => NaN
  | Finite x, Finite y => round (x - y)
  | Finite _, PosInf | NegInf, Finite _ | NegInf, PosInf => NegInf
  | Finite _, NegInf | PosInf, Finite _ | PosInf, NegInf => PosInf
  | PosInf, PosInf | NegInf, NegInf => NaN
  end.

(** [ToIntegerOrInfinity] of a finite number: the fraction is dropped. *)
Definition truncate (q : Q) : Z := if Qle_bool 0 q then Qfloor q else Qceiling q.

(** [beyond b x]: the magnitude of [x] is at least [b]. *)
Definition beyond (b : Q) (x : number) : Prop :=
  match x with
  | Finite y => b <= y \/ y <= - b
  | PosInf | NegInf => True
  | NaN => False
  end.

End Double.

(* ------------------------------------------------------------------ *)
(** ** The part of [Date] used by ha_get_history *)

Module JsDate.

(** A [Date] is its time value in milliseconds since the epoch; [None]
    is the time value NaN of an invalid date. *)
Definition Date : Type := option Z.

Definition maxTime : Z := 8640000000000000.

(** [new Date(value)] for an integral [value]: TimeClip. *)
Definition new_Date (value : Z) : Date :=
  if Z.abs value <=? maxTime then Some value else None.

(** [new Date(value)] for any Number: TimeClip yields NaN for a value
    that is not finite or exceeds [maxTime] in magnitude, and drops the
    fraction of the others. *)
Definition new_Date_number (value : Double.number) : Date :=
  match value with
  | Double.Finite q =>
      if Qle_bool (Qabs q) (inject_Z maxTime) then Some (Double.truncate q) else None
  | _ => None
  end.

Definition msPerDay : Z := 86400000.

(** Decimal digits of a non-negative number, zero-padded on the left. *)
Definition pad (width : nat) (n : Z) : string :=
  let digits := pretty n in
  String.concat "" (repeat "0" (width - String.length digits)) ++ digits.

(** Year, month and day of the proleptic Gregorian calendar for a day
    number counted from 1970-01-01. *)
Definition civil_from_days (day : Z) : Z * Z * Z :=
  let z := day + 719468 in
  let era := z / 146097 in
  let doe := z - era * 146097 in
  let yoe := (doe - doe / 1460 + doe / 36524 - doe / 146096) / 365 in
  let doy := doe - (365 * yoe + yoe / 4 - yoe / 100) in
  let mp := (5 * doy + 2) / 153 in
  let d := doy - (153 * mp + 2) / 5 + 1 in
  let m := if mp <? 10 then mp + 3 else mp - 9 in
  let y := yoe + era * 400 in
  (if m <=? 2 then y + 1 else y, m, d).

Definition year_string (y : Z) : string :=
  if (0 <=? y) && (y <=? 9999) then pad 4 y
  else if y <? 0 then "-" ++ pad 6 (- y)
  else "+" ++ pad 6 y.

(** The text of [toISOString] for a valid time value. *)
Definition iso_string (tv : Z) : string :=
  let '(y, m, d) := civil_from_days (tv / msPerDay) in
  let ms := tv mod msPerDay in
  year_string y ++ "-" ++ pad 2 m ++ "-" ++ pad 2 d ++ "T"
    ++ pad 2 (ms / 3600000) ++ ":" ++ pad 2 (ms / 60000 mod 60) ++ ":"
    ++ pad 2 (ms / 1000 mod 60) ++ "." ++ pad 3 (ms mod 1000) ++ "Z".

(** [Date.prototype.toISOString]: throws on an invalid date. *)
Definition toISOString (d : Date) : Outcome string :=
  match d with
  | Some tv => Returned (iso_string tv)
  | None => Thrown (RangeError "Invalid time value")
  end.

End JsDate.

(* ------------------------------------------------------------------ *)

Section Client.

(** [process.env.SUPERVISOR_TOKEN]; [None] when the variable is unset. *)
Variable SUPERVISOR_TOKEN : option string.

(** The upstream: how [fetch] settles for a request, given the requests
    issued before it. A rejection covers network failures and the abort
    raised by the timer. *)
Variable upstream : list FetchRequest -> FetchRequest -> Outcome Response.

Definition fetch (req : FetchRequest) : M Response :=
  fun issued => (upstream issued req, (issued ++ [req])%list).

Definition bearer : string :=
  "Bearer " ++ match SUPERVISOR_TOKEN with Some t => t | None => "undefined" end.

(** [body ? JSON.stringify(body) : undefined]. *)
Definition sent_body (body : option JsValue) : option JsValue :=
  match body with
  | Some v => if truthy v then Some v else None
  | None => None
  end.

(** [response.headers.get("content-type") || ""]. *)
Definition contentType_of (r : Response) : string :=
  match content_type r with
  | Some c => c
  | None => ""
  end.

Definition haApiRequest (endpoint : string) (options : RequestOptions) : M JsValue :=
  let method := default "GET" (opt_method options) in
  let body := opt_body options in
  let timeout := default 30000 (opt_timeout options) in
  let url := HA_API_BASE ++ endpoint in
  response <- fetch {| url := url;
                       method := method;
                       authorization := bearer;
                       content_type_header := "application/json";
                       body_json := sent_body body;
                       abort_after := timeout |} ;;
  if negb (ok response) then
    let text := match text response with Returned t => t | Thrown _ => "" end in
    throw (Error ("HA API " ++ method ++ " " ++ endpoint ++ " failed ("
                    ++ pretty (status response) ++ "): " ++ text))
  else
    let contentType := contentType_of response in
    if includes contentType "application/json" then await (json response)
    else t <- await (text response) ;; ret (JStr t).

Definition supervisorApiRequest (endpoint : string) (options : RequestOptions) : M JsValue :=
  let method := default "GET" (opt_method options) in
  let body := opt_body options in
  let timeout := default 30000 (opt_timeout options) in
  let rawResponse := default false (opt_rawResponse options) in
  let url := SUPERVISOR_API_BASE ++ endpoint in
  response <- fetch {| url := url;
                       method := method;
                       authorization := bearer;
                       content_type_header := "application/json";
                       body_json := sent_body body;
                       abort_after := timeout |} ;;
  if negb (ok response) then
    let text := match text response with Returned t => t | Thrown _ => "" end in
    throw (Error ("Supervisor API " ++ method ++ " " ++ endpoint ++ " failed ("
                    ++ pretty (status response) ++ "): " ++ text))
  else if rawResponse then t <- await (text response) ;; ret (JStr t)
  else
    let contentType := contentType_of response in
    if includes contentType "application/json" then await (json response)
    else t <- await (text response) ;; ret (JStr t).

(* ------------------------------------------------------------------ *)
(** ** Tool 3: ha_call_service *)

(** A target field: [z.union([z.string(), z.array(z.string())])]. *)
Inductive TargetValue :=
| One (id : string)
| Many (ids : list string).

Definition target_json (v : TargetValue) : JsValue :=
  match v with
  | One id => JStr id
  | Many ids => JArr (map JStr ids)
  end.

(** The [target] object after schema validation: the three optional
    fields and nothing else. *)
Record Target := {
  target_entity_id : option TargetValue;
  target_area_id : option TargetValue;
  target_device_id : option TargetValue;
}.

(** [if (target.k) body.k = target.k]. *)
Definition assign_if_truthy (key : string) (v : option TargetValue)
    (body : gmap string JsValue) : gmap string JsValue :=
  match v with
  | Some x => if truthy (target_json x) then <[key := target_json x]> body else body
  | None => body
  end.

(** [Object.assign(body, data)]: every own key of [data] is set on
    [body]. Setting ["__proto__"] on an object literal runs the accessor
    inherited from [Object.prototype]: at most the prototype changes,
    and no property is created. (The record the handler receives from
    its schema has no such key in the first place.) *)
Definition Object_assign (body data : gmap string JsValue) : gmap string JsValue :=
  delete "__proto__" data ∪ body.

(** The handler's [body] when it reaches the request. *)
Definition call_service_body (target : option Target)
    (data : option (gmap string JsValue)) : gmap string JsValue :=
  let body : gmap string JsValue := ∅ in
  let body :=
    match target with
    | Some t =>
        let body := assign_if_truthy "entity_id" (target_entity_id t) body in
        let body := assign_if_truthy "area_id" (target_area_id t) body in
        assign_if_truthy "device_id" (target_device_id t) body
    | None => body
    end in
  match data with
  | Some d => Object_assign body d
  | None => body
  end.

(** [Object.keys(body).length > 0 ? body : undefined]. *)
Definition call_service_options (body : gmap string JsValue) : RequestOptions :=
  {| opt_method := Some "POST";
     opt_body := if (0 <? size body)%nat then Some (JObj body) else None;
     opt_timeout := None;
     opt_rawResponse := None |}.

Definition ha_call_service (domain service : string) (target : option Target)
    (data : option (gmap string JsValue)) : M string :=
  let body := call_service_body target data in
  result <- haApiRequest ("/services/" ++ domain ++ "/" ++ service)
                         (call_service_options body) ;;
  let changed := match result with JArr items => length items | _ => 0%nat end in
  ret ("Service " ++ domain ++ "." ++ service ++ " called successfully. "
         ++ pretty changed ++ " entity state(s) changed.").

(* ------------------------------------------------------------------ *)
(** ** Tool 8: ha_restart *)

Definition post_options : RequestOptions :=
  {| opt_method := Some "POST"; opt_body := None;
     opt_timeout := None; opt_rawResponse := None |}.

Definition restart_cancelled : string :=
  "Restart cancelled. Set confirm=true to proceed. Consider running `ha core check` first to validate configuration.".

Definition restart_initiated : string :=
  "Home Assistant restart initiated. It will be unavailable briefly. Check logs after restart with ha_get_logs.".

Definition ha_restart (confirm : bool) : M string :=
  if negb confirm then ret restart_cancelled
  else
    _ <- haApiRequest "/services/homeassistant/restart" post_options ;;
    ret restart_initiated.

(* ------------------------------------------------------------------ *)
(** ** Tool 9: ha_reload_config *)

(** The object literal, in declaration order. *)
Definition RELOAD_MAP : list (string * string) :=
  [ ("automation", "automation/reload");
    ("script", "script/reload");
    ("scene", "scene/reload");
    ("group", "group/reload");
    ("input_boolean", "input_boolean/reload");
    ("input_number", "input_number/reload");
    ("input_select", "input_select/reload");
    ("input_datetime", "input_datetime/reload");
    ("input_text", "input_text/reload");
    ("input_button", "input_button/reload");
    ("timer", "timer/reload");
    ("counter", "counter/reload");
    ("schedule", "schedule/reload");
    ("zone", "zone/reload");
    ("template", "template/reload");
    ("person", "person/reload");
    ("core", "homeassistant/reload_core_config") ].

(** [Object.keys]. *)
Definition Object_keys (o : list (string * string)) : list string := map fst o.

(** The properties every object literal inherits from [Object.prototype]. *)
Definition Object_prototype_methods : list string :=
  [ "constructor"; "hasOwnProperty"; "isPrototypeOf"; "propertyIsEnumerable";
    "toLocaleString"; "toString"; "valueOf";
    "__defineGetter__"; "__defineSetter__"; "__lookupGetter__"; "__lookupSetter__" ].

(** What a property read [o[key]] on an object literal of strings
    evaluates to. *)
Inductive Property :=
| PString (s : string)          (* an own property *)
| PFunction (name : string)     (* a built-in function found on the prototype *)
| PPrototype                    (* [__proto__]: the prototype object itself *)
| PUndefined.

Fixpoint own_property (o : list (string * string)) (key : string) : option string :=
  match o with
  | [] => None
  | (k, v) :: rest => if String.eqb k key then Some v else own_property rest key
  end.

(** [o[key]]: the own property if there is one, else the lookup
    continues on [Object.prototype]. *)
Definition get_property (o : list (string * string)) (key : string) : Property :=
  match own_property o key with
  | Some v => PString v
  | None =>
      if String.eqb key "__proto__" then PPrototype
      else if String.eqb key "constructor" then PFunction "Object"
      else if existsb (String.eqb key) Object_prototype_methods then PFunction key
      else PUndefined
  end.

Definition property_truthy (p : Property) : bool :=
  match p with
  | PString s => truthy_str s
  | PFunction _ | PPrototype => true
  | PUndefined => false
  end.

(** ToString of a property value; a built-in function prints as Node
    prints it. *)
Definition property_to_string (p : Property) : string :=
  match p with
  | PString s => s
  | PFunction name => "function " ++ name ++ "() { [native code] }"
  | PPrototype => "[object Object]"
  | PUndefined => "undefined"
  end.

Definition unknown_domain (domain : string) : string :=
  "Unknown domain '" ++ domain ++ "'. Supported: " ++ join ", " (Object_keys RELOAD_MAP).

Definition reloaded (domain : string) : string :=
  "Reloaded '" ++ domain ++ "' configuration successfully.".

Definition ha_reload_config (domain : string) : M string :=
  let endpoint := get_property RELOAD_MAP domain in
  if negb (property_truthy endpoint) then ret (unknown_domain domain)
  else
    _ <- haApiRequest ("/services/" ++ property_to_string endpoint) post_options ;;
    ret (reloaded domain).

(* ------------------------------------------------------------------ *)
(** ** Tool 10: ha_get_logs *)

Definition raw_options : RequestOptions :=
  {| opt_method := None; opt_body := None;
     opt_timeout := None; opt_rawResponse := Some true |}.

(** [allLines.slice(-lines)] on the fetched text. *)
Definition last_lines (logs : string) (lines : Z) : list string :=
  let allLines := split "010"%char logs in
  slice allLines (- lines) None.

Definition logs_text (logs : string) (lines : Z) : string :=
  "Home Assistant logs (last " ++ number_to_string lines ++ " lines):" ++ LF ++ LF
    ++ join LF (last_lines logs lines).

Definition ha_get_logs (lines : Z) : M string :=
  logs <- supervisorApiRequest "/core/logs" raw_options ;;
  match logs with
  | JStr logs => ret (logs_text logs lines)
  | _ => throw (TypeError "logs.split is not a function")
  end.

(* ------------------------------------------------------------------ *)
(** ** Tool 11: ha_get_history (up to its request) *)

(** [start]: [new Date(now.getTime() - hours * 60 * 60 * 1000)], where
    [now] is the time value read by [new Date()] and [hours] is any
    Number: three products and a difference, each rounded to a
    double. *)
Definition history_start_double (now : Z) (hours : Double.number) : JsDate.Date :=
  JsDate.new_Date_number
    (Double.sub (Double.Finite (inject_Z now))
       (Double.mul (Double.mul (Double.mul hours (Double.Finite 60)) (Double.Finite 60))
          (Double.Finite 1000))).

(** The same for an integral [hours], computed on integers: the
    double-precision products and difference are exact whenever the
    difference is a valid time value, and a difference beyond the valid
    range stays beyond it after rounding, so the two computations agree
    ([history_start_double_integral] below). *)
Definition history_start (now hours : Z) : JsDate.Date :=
  JsDate.new_Date (now - hours * 60 * 60 * 1000).

Definition history_path (startISO entity_id : string) : string :=
  "/history/period/" ++ startISO ++ "?filter_entity_id=" ++ entity_id
    ++ "&no_attributes&minimal_response".

(** The handler from its first statement to the value [result] that
    the adapter call yields. *)
Definition ha_get_history_result (now : Z) (entity_id : string) (hours : Z) : M JsValue :=
  let start := history_start now hours in
  startISO <- await (JsDate.toISOString start) ;;
  haApiRequest (history_path startISO entity_id) no_options.

(** The same stretch of the handler for any Number [hours]. *)
Definition ha_get_history_result_double (now : Z) (entity_id : string)
    (hours : Double.number) : M JsValue :=
  let start := history_start_double now hours in
  startISO <- await (JsDate.toISOString start) ;;
  haApiRequest (history_path startISO entity_id) no_options.

(* ------------------------------------------------------------------ *)
(** ** Tool 13: ha_render_template *)

Definition template_options (template : string) : RequestOptions :=
  {| opt_method := Some "POST";
     opt_body := Some (JObj {[ "template" := JStr template ]});
     opt_timeout := None;
     opt_rawResponse := None |}.

Definition ha_render_template (template : string) : M string :=
  result <- haApiRequest "/template" (template_options template) ;;
  ret ("Template result:" ++ LF ++ LF ++ to_string result).

End Client.

Arguments fetch upstream req issued /.

(* ================================================================== *)
(** ** The remaining tools of index.ts *)

(** The double quote, which the templates and one result line contain. *)
Definition DQ : string := String "034"%char "".

(** [`${v || fallback}`]: the value printed when truthy, else the
    fallback. *)
Definition or_else (v : JsValue) (fallback : string) : string :=
  if truthy v then to_string v else fallback.

(* ------------------------------------------------------------------ *)
(** ** Tool 6: ha_get_automations *)

Module GetAutomations.

Definition automations (states : list EntityState) : list EntityState :=
  List.filter (fun s => startsWith (entity_id s) "automation.") states.

(** [a.attributes.last_triggered || "never"], interpolated. *)
Definition lastTriggered (a : EntityState) : string :=
  match attributes a !! "last_triggered" with
  | Some v => or_else v "never"
  | None => "never"
  end.

Definition line_of (a : EntityState) : string :=
  entity_id a ++ " — " ++ state a ++ " — " ++ DQ ++ GetEntities.name_of a ++ DQ
    ++ " (last triggered: " ++ lastTriggered a ++ ")".

End GetAutomations.

(** The text the handler returns once [await haApiRequest("/states")]
    has yielded [states]. *)
Definition ha_get_automations (states : list EntityState) : string :=
  let automations := GetAutomations.automations states in
  if (length automations =? 0)%nat then "No automations found."
  else "Found " ++ pretty (length automations) ++ " automations:" ++ LF ++ LF
         ++ join LF (map GetAutomations.line_of automations).

(* ------------------------------------------------------------------ *)
(** ** Tool 7: ha_get_integrations *)

(** The answer of [GET /config], as the handler's cast types it. *)
Record Config := {
  components : list string;
  version : string;
}.

Module GetIntegrations.

(** [component.split(".")[0]]. *)
Definition base_domain (component : string) : string :=
  match split "."%char component with
  | first :: _ => first
  | [] => "undefined"
  end.

(** [Set.prototype.add] on a set kept in insertion order. *)
Definition Set_add (s : list string) (x : string) : list string :=
  if decide (x ∈ s) then s else (s ++ [x])%list.

(** [baseDomains] after the loop. *)
Definition baseDomains (config : Config) : list string :=
  foldl (fun s component => Set_add s (base_domain component)) [] (components config).

(** [[...baseDomains].sort()]. The runtime's [Array.prototype.sort]
    (without a comparator: order of the UTF-16 code units) is a
    parameter, [Array_sort]. *)
Definition sorted (Array_sort : list string -> list string) (config : Config)
  : list string :=
  Array_sort (baseDomains config).

End GetIntegrations.

(** The text the handler returns once [await haApiRequest("/config")]
    has yielded [config]. *)
Definition ha_get_integrations (Array_sort : list string -> list string)
    (config : Config) : string :=
  let sorted := GetIntegrations.sorted Array_sort config in
  "HA Version: " ++ version config ++ LF ++ pretty (length sorted)
    ++ " integrations installed:" ++ LF ++ LF ++ join ", " sorted.

(* ------------------------------------------------------------------ *)
(** ** Tool 11: ha_get_history (from the result on) *)

(** An element of a series of the history answer, as the handler's cast
    types it. *)
Record Change := {
  change_state : string;
  change_last_changed : string;
}.

(** The text the handler returns for the [result] of its adapter call:
    [None] is a falsy result ([null]), otherwise the array of series. *)
Definition history_text (entity_id : string) (hours : Z)
    (result : option (list (list Change))) : string :=
  let no_history :=
    "No history found for " ++ entity_id ++ " in the last " ++ pretty hours ++ " hours." in
  match result with
  | None | Some [] | Some ([] :: _) => no_history
  | Some (changes :: _) =>
      let lines := map (fun c => change_last_changed c ++ " — " ++ change_state c) changes in
      "History for " ++ entity_id ++ " (last " ++ pretty hours ++ "h, "
        ++ pretty (length changes) ++ " changes):" ++ LF ++ LF ++ join LF lines
  end.

Section MoreTools.

Variable SUPERVISOR_TOKEN : option string.
Variable upstream : list FetchRequest -> FetchRequest -> Outcome Response.

(** [String.prototype.trim] and [JSON.stringify] of the runtime. *)
Variable trim : string -> string.
Variable JSON_stringify : JsValue -> string.

(* ------------------------------------------------------------------ *)
(** ** Tool 4: ha_get_areas *)

Definition areas_template : string :=
  "{% set result = [] %}{% for area_id in areas() %}{% set result = result + [area_id ~ "
    ++ DQ ++ ": " ++ DQ ++ " ~ area_name(area_id) ~ " ++ DQ ++ " (" ++ DQ
    ++ " ~ (area_entities(area_id) | length) ~ " ++ DQ ++ " entities)" ++ DQ
    ++ "] %}{% endfor %}{{ result | join(" ++ DQ ++ "\n" ++ DQ ++ ") }}".

Definition ha_get_areas : M string :=
  let template := areas_template in
  rendered <- haApiRequest SUPERVISOR_TOKEN upstream "/template"
                           (template_options template) ;;
  ret ("Areas:" ++ LF ++ LF ++ or_else rendered "No areas defined.").

(* ------------------------------------------------------------------ *)
(** ** Tool 5: ha_get_devices *)

Definition area_devices_template (area_id : string) : string :=
  "{% for device_id in area_devices('" ++ area_id
    ++ "') %}{{ device_id }}: {{ device_attr(device_id, 'name') or 'Unknown' }} ({{ device_attr(device_id, 'manufacturer') or '?' }} {{ device_attr(device_id, 'model') or '' }})"
    ++ LF ++ "{% endfor %}".

Definition all_devices_template : string :=
  "{% set seen = [] %}{% for area_id in areas() %}{% for device_id in area_devices(area_id) %}{% if device_id not in seen %}{% set seen = seen + [device_id] %}{{ device_id }}: {{ device_attr(device_id, 'name') or 'Unknown' }} [{{ area_name(area_id) }}] ({{ device_attr(device_id, 'manufacturer') or '?' }})"
    ++ LF ++ "{% endif %}{% endfor %}{% endfor %}".

(** [area_id] is [None] when omitted; the empty string is falsy too. *)
Definition area_given (area_id : option string) : option string :=
  match area_id with
  | Some a => if truthy_str a then Some a else None
  | None => None
  end.

Definition devices_template (area_id : option string) : string :=
  match area_given area_id with
  | Some a => area_devices_template a
  | None => all_devices_template
  end.

Definition devices_label (area_id : option string) : string :=
  match area_given area_id with
  | Some a => "Devices in area '" ++ a ++ "'"
  | None => "Devices"
  end.

Definition ha_get_devices (area_id : option string) : M string :=
  let template := devices_template area_id in
  rendered <- haApiRequest SUPERVISOR_TOKEN upstream "/template"
                           (template_options template) ;;
  let label := devices_label area_id in
  match rendered with
  | JStr rendered =>
      ret (label ++ ":" ++ LF ++ LF
             ++ or_else (JStr (trim rendered)) "No devices found.")
  | JNull => throw (TypeError "Cannot read properties of null (reading 'trim')")
  | _ => throw (TypeError "rendered.trim is not a function")
  end.

(* ------------------------------------------------------------------ *)
(** ** Tool 12: ha_fire_event *)

(** [body: event_data || {}]: an object is truthy, even an empty one. *)
Definition event_options (event_data : option (gmap string JsValue)) : RequestOptions :=
  {| opt_method := Some "POST";
     opt_body := Some (JObj (default ∅ event_data));
     opt_timeout := None;
     opt_rawResponse := None |}.

Definition event_fired (event_type : string)
    (event_data : option (gmap string JsValue)) : string :=
  "Event '" ++ event_type ++ "' fired successfully."
    ++ match event_data with
       | Some d => " Data: " ++ JSON_stringify (JObj d)
       | None => ""
       end.

Definition ha_fire_event (event_type : string)
    (event_data : option (gmap string JsValue)) : M string :=
  _ <- haApiRequest SUPERVISOR_TOKEN upstream ("/events/" ++ event_type)
                    (event_options event_data) ;;
  ret (event_fired event_type event_data).

End MoreTools.

(* ================================================================== *)
(** ** Vocabulary of the specification *)

Module Spec.

(** The identifier prefix up to the first separator. *)
Fixpoint prefix_before (sep : ascii) (s : string) : string :=
  match s with
  | EmptyString => ""
  | String c rest => if Ascii.eqb c sep then "" else String c (prefix_before sep rest)
  end.

(** The domain of an entity identifier. *)
Definition domain_of (id : string) : string := prefix_before "."%char id.

(** The last [n] entries of a list, all of them when there are fewer. *)
Definition last_entries {A} (n : nat) (l : list A) : list A :=
  drop (length l - n) l.

(** A status in the 200-299 range. *)
Definition success_status (s : Z) : Prop := 200 <= s <= 299.

(** The response declares a JSON content type. *)
Definition declares_json (r : Response) : Prop :=
  includes (contentType_of r) "application/json" = true.

End Spec.

(** The requests the two adapter functions hand to [fetch]. *)
Definition request_to (base : string) (token : option string) (endpoint : string)
    (options : RequestOptions) : FetchRequest :=
  {| url := base ++ endpoint;
     method := default "GET" (opt_method options);
     authorization := bearer token;
     content_type_header := "application/json";
     body_json := sent_body (opt_body options);
     abort_after := default 30000 (opt_timeout options) |}.

(** The two adapter functions, told apart by the base they call. *)
Inductive Api := Core | Supervisor.

Definition base_of (api : Api) : string :=
  match api with Core => HA_API_BASE | Supervisor => SUPERVISOR_API_BASE end.

(** The prefix of the error message. *)
Definition label_of (api : Api) : string :=
  match api with Core => "HA API" | Supervisor => "Supervisor API" end.

Definition adapter_call (token : option string)
    (upstream : list FetchRequest -> FetchRequest -> Outcome Response) (api : Api)
  : string -> RequestOptions -> M JsValue :=
  match api with
  | Core => haApiRequest token upstream
  | Supervisor => supervisorApiRequest token upstream
  end.

(** Whether the call forces raw-text decoding ([rawResponse], which only
    [supervisorApiRequest] reads). *)
Definition raw_forced (api : Api) (options : RequestOptions) : bool :=
  match api with
  | Core => false
  | Supervisor => default false (opt_rawResponse options)
  end.

(** [await response.text().catch(() => "")]. *)
Definition body_excerpt (r : Response) : string :=
  match text r with Returned t => t | Thrown _ => "" end.

(** [await response.text()] as the result of the call. *)
Definition as_text (r : Response) : Outcome JsValue :=
  match text r with Returned t => Returned (JStr t) | Thrown e => Thrown e end.

(** How an adapter call settles once [fetch] has settled as [o]. *)
Definition settle (api : Api) (endpoint : string) (options : RequestOptions)
    (o : Outcome Response) : Outcome JsValue :=
  match o with
  | Thrown e => Thrown e
  | Returned r =>
      if negb (ok r) then
        Thrown (Error (label_of api ++ " " ++ default "GET" (opt_method options)
                         ++ " " ++ endpoint ++ " failed (" ++ pretty (status r)
                         ++ "): " ++ body_excerpt r))
      else if raw_forced api options then as_text r
      else if includes (contentType_of r) "application/json" then json r
      else as_text r
  end.

(** The names a property read on an object literal finds on the
    prototype when the object has no such property of its own. *)
Definition inherited (key : string) : bool :=
  String.eqb key "__proto__" || existsb (String.eqb key) Object_prototype_methods.

(** The field of [target] written under a key of the body. *)
Definition target_field (t : Target) (key : string) : option TargetValue :=
  if decide (key = "entity_id") then target_entity_id t
  else if decide (key = "area_id") then target_area_id t
  else if decide (key = "device_id") then target_device_id t
  else None.

(** What the target contributes under a key: its field, when truthy. *)
Definition target_entry (t : Target) (key : string) : option JsValue :=
  match target_field t key with
  | Some x => if truthy (target_json x) then Some (target_json x) else None
  | None => None
  end.

(* ================================================================== *)
(** ** Fixtures: concrete states and upstreams for the examples *)

Module Fixture.

Definition entity (id st : string) : EntityState :=
  {| entity_id := id; state := st; attributes := ∅; last_changed := "" |}.

Definition named (id st name : string) : EntityState :=
  {| entity_id := id; state := st;
     attributes := {[ "friendly_name" := JStr name ]}; last_changed := "" |}.

(** Three lights and five other entities. *)
Definition states : list EntityState :=
  [ named "light.kitchen" "on" "Kitchen";
    entity "sensor.temperature" "21.5";
    entity "light.hall" "off";
    entity "switch.pump" "off";
    entity "automation.morning" "on";
    named "light.porch" "on" "Porch";
    entity "binary_sensor.door" "off";
    entity "sun.sun" "below_horizon" ].

(** An upstream that answers every request with the same response. *)
Definition always (r : Response) : list FetchRequest -> FetchRequest -> Outcome Response :=
  fun _ _ => Returned r.

(** A plain-text response. *)
Definition plain (st : Z) (body : string) : Response :=
  {| status := st; content_type := Some "text/plain; charset=utf-8";
     text := Returned body;
     json := Thrown (Rejected "Unexpected token") |}.

(** A response declared as JSON that decodes to [v] and reads as [raw]. *)
Definition as_json (st : Z) (raw : string) (v : JsValue) : Response :=
  {| status := st; content_type := Some "application/json";
     text := Returned raw;
     json := Returned v |}.

(** A response whose body cannot be read. *)
Definition unreadable (st : Z) : Response :=
  {| status := st; content_type := None;
     text := Thrown (Rejected "terminated");
     json := Thrown (Rejected "terminated") |}.

(** A target whose only field is the empty string, and a data payload. *)
Definition empty_target : Target :=
  {| target_entity_id := Some (One ""); target_area_id := None;
     target_device_id := None |}.

Definition kitchen : Target :=
  {| target_entity_id := Some (One "light.kitchen"); target_area_id := None;
     target_device_id := None |}.

Definition brightness : gmap string JsValue := {[ "brightness_pct" := JNum 80 ]}.

(** Three log lines. *)
Definition log_text : string := "a" ++ LF ++ "b" ++ LF ++ "c".

End Fixture.

(* ================================================================== *)
(** ** More fixtures *)

Module Sample.

(** An upstream on which every [fetch] is aborted. *)
Definition aborting : list FetchRequest -> FetchRequest -> Outcome Response :=
  fun _ _ => Thrown (Rejected "This operation was aborted").

(** A JSON response whose content type carries a charset. *)
Definition json_utf8 (v : JsValue) : Response :=
  {| status := 200; content_type := Some "application/json; charset=utf-8";
     text := Returned "[]"; json := Returned v |}.

(** The answer of a service call that changed two entities. *)
Definition two_changed : JsValue := JArr [JObj ∅; JObj ∅].

(** Components as [GET /config] lists them. *)
Definition config : Config :=
  {| components := ["sensor.mqtt"; "mqtt"; "light"; "sensor"; "light.hue"; "zone"];
     version := "2024.1.0" |}.

(** A stand-in for [sort] that orders strings by their bytes, as the
    runtime orders ASCII names. *)
Definition byte_sort : list string -> list string := merge_sort String.le.

(** A stand-in for [trim] that removes nothing. *)
Definition keep (s : string) : string := s.

End Sample.

(* ================================================================== *)
(** ** Properties of the built-ins *)

Section BuiltIns.

Lemma string_app_assoc (a b c : string) : (a ++ b) ++ c = a ++ b ++ c.
Proof.
  induction a as [|x a IH]; [done|].
  change ((String x a ++ b) ++ c) with (String x ((a ++ b) ++ c)).
  by rewrite IH.
Qed.

Lemma prefix_nil (s : string) : String.prefix "" s = true.
Proof. by destruct s. Qed.

Lemma startsWith_app (s p : string) :
  startsWith s p = true <-> exists r, s = p ++ r.
Proof.
  unfold startsWith. revert s. induction p as [|a p IH]; intros s.
  - rewrite prefix_nil. split; [intros _; by exists s | done].
  - destruct s as [|b s]; simpl.
    + split; [done | intros [r Hr]; discriminate].
    + destruct (ascii_dec a b) as [->|Hne].
      * rewrite IH. split; intros [r Hr]; exists r; simpl in *;
          [by rewrite Hr | by injection Hr].
      * split; [done | intros [r Hr]; simpl in Hr; injection Hr; congruence].
Qed.

Lemma includes_cons_false (c : ascii) (s p : string) :
  includes (String c s) p = false ->
  String.prefix p (String c s) = false /\ includes s p = false.
Proof. simpl. intros H. by apply orb_false_iff in H. Qed.

(** A string without the separator, followed by the separator, is the
    prefix before the first separator of the whole. *)
Lemma prefix_before_app (d r : string) :
  includes d "." = false -> Spec.prefix_before "."%char (d ++ "." ++ r) = d.
Proof.
  induction d as [|c d IH]; intros Hd.
  - reflexivity.
  - apply includes_cons_false in Hd as [Hc Hd]. simpl in *.
    destruct (ascii_dec "." c) as [<-|Hne].
    + by rewrite prefix_nil in Hc.
    + destruct (Ascii.eqb_spec c ".") as [->|_]; [done|].
      by rewrite IH.
Qed.

Context {A : Type}.
Implicit Types l : list A.

Lemma slice_subseteq l (start : Z) (end_ : option Z) : slice l start end_ ⊆ l.
Proof.
  unfold slice. etrans; [apply subseteq_take | apply subseteq_drop].
Qed.

(** [slice(0, n)] with a non-negative [n] keeps the first [n] elements. *)
Lemma slice_0_nonneg l (n : Z) : 0 <= n -> slice l 0 (Some n) = take (Z.to_nat n) l.
Proof.
  intros Hn. unfold slice, relative_index.
  replace (0 <? 0) with false by done.
  destruct (Z.ltb_spec n 0) as [?|_]; [lia|].
  rewrite (Z.min_l 0) by lia. simpl. rewrite drop_0, Z.sub_0_r.
  destruct (Z.min_spec n (Z.of_nat (length l))) as [[_ ->]|[Hle ->]]; [done|].
  rewrite Nat2Z.id. rewrite !take_ge; [done | lia | lia].
Qed.

(** [slice(-n)] with a positive [n] keeps the last [n] elements. *)
Lemma slice_neg_last l (n : Z) :
  1 <= n -> slice l (- n) None = Spec.last_entries (Z.to_nat n) l.
Proof.
  intros Hn. unfold slice, relative_index, Spec.last_entries.
  destruct (Z.ltb_spec (- n) 0) as [_|?]; [|lia].
  rewrite take_ge by (rewrite length_drop; lia).
  f_equal. lia.
Qed.

(** [slice(-0)] is [slice(0)]: the whole array. *)
Lemma slice_neg_zero l : slice l (- 0) None = l.
Proof.
  unfold slice, relative_index. simpl.
  rewrite Z.min_l by lia. simpl. rewrite drop_0, Z.sub_0_r, Nat2Z.id.
  by rewrite take_ge.
Qed.

End BuiltIns.

Lemma pretty_of_nat (n : nat) : pretty (Z.of_nat n) = pretty n.
Proof. by destruct n. Qed.

(* ================================================================== *)
(** ** ha_get_entities: the domain filter and the limit *)

Section GetEntitiesProperties.
Import GetEntities.

Implicit Types (states : list EntityState) (d : string) (domain : option string).

Lemma truthy_str_true d : d <> "" -> truthy_str d = true.
Proof.
  intros Hd. unfold truthy_str. by destruct (String.eqb_spec d "").
Qed.

Lemma filtered_some states d :
  d <> "" ->
  filtered states (Some d)
  = List.filter (fun s => startsWith (entity_id s) (d ++ ".")) states.
Proof. intros Hd. unfold filtered. by rewrite truthy_str_true. Qed.

Lemma limited_subseteq states domain (limit : Z) :
  limited states domain limit ⊆ filtered states domain.
Proof. apply slice_subseteq. Qed.

Lemma filtered_elem states d s :
  d <> "" -> s ∈ filtered states (Some d) ->
  s ∈ states /\ startsWith (entity_id s) (d ++ ".") = true.
Proof.
  intros Hd. rewrite filtered_some by done.
  rewrite list_elem_of_In, filter_In, <- list_elem_of_In. tauto.
Qed.

Lemma limited_nonneg states domain (n : Z) :
  0 <= n -> limited states domain n = take (Z.to_nat n) (filtered states domain).
Proof. apply slice_0_nonneg. Qed.

(** The text is assembled from the header, the annotation and the
    lines, in this order. *)
Lemma result_text_parts states domain (limit : Z) :
  ha_get_entities states domain limit
  = header states domain ++ showing states domain limit ++ ":" ++ LF ++ LF
      ++ join LF (map line_of (limited states domain limit)).
Proof. reflexivity. Qed.

(** C1, as the code has it. For every list of entity states returned by
    the upstream and every non-empty domain string [d] without a ['.'],
    the entities [get_entities(domain=d)] formats are entities of the
    list whose identifier prefix up to the first ['.'] equals [d]; the
    count in the header is the number of entities that pass the filter
    (those whose identifier starts with [d] followed by ['.']), not the
    length of the unfiltered list. In every case the header is "Found",
    that count and the domain (or "total") followed by "entities". The
    length of the unfiltered list is what the header reports when no
    domain, or the empty one, is given: then nothing is filtered and
    the text is the same in both cases. *)
Theorem get_entities_domain_filter states d (limit : Z) :
  d <> "" -> includes d "." = false ->
  (forall s, s ∈ limited states (Some d) limit ->
     s ∈ states /\ Spec.domain_of (entity_id s) = d)
  /\ lines states (Some d) limit = map line_of (limited states (Some d) limit)
  /\ header states (Some d)
     = "Found "
         ++ pretty (length (List.filter
                              (fun s => startsWith (entity_id s) (d ++ ".")) states))
         ++ " " ++ d ++ " entities"
  /\ header_count states (Some d)
     = length (List.filter (fun s => startsWith (entity_id s) (d ++ ".")) states)
  /\ (forall domain,
        header states domain
        = "Found " ++ pretty (header_count states domain) ++ " "
            ++ match domain with
               | Some d' => if truthy_str d' then d' else "total"
               | None => "total"
               end ++ " entities")
  /\ header states None = "Found " ++ pretty (length states) ++ " total entities"
  /\ header states (Some "") = "Found " ++ pretty (length states) ++ " total entities"
  /\ filtered states None = states
  /\ filtered states (Some "") = states
  /\ ha_get_entities states (Some d) limit
     = header states (Some d) ++ showing states (Some d) limit ++ ":" ++ LF ++ LF
         ++ join LF (lines states (Some d) limit)
  /\ ha_get_entities states (Some "") limit = ha_get_entities states None limit
  /\ ha_get_entities states None limit
     = "Found " ++ pretty (length states) ++ " total entities"
         ++ showing states None limit ++ ":" ++ LF ++ LF
         ++ join LF (map line_of (slice states 0 (Some limit))).
Proof.
  intros Hd Hdot. split; [|split; [done|]].
  - intros s Hs. apply limited_subseteq, filtered_elem in Hs as [Hin Hpre]; [|done].
    split; [done|]. apply startsWith_app in Hpre as [r ->].
    unfold Spec.domain_of. rewrite string_app_assoc. by apply prefix_before_app.
  - split; [|split]; [unfold header; by rewrite truthy_str_true, ?filtered_some
                     |unfold header_count; by rewrite truthy_str_true, ?filtered_some|].
    split.
    { intros [d'|]; unfold header, header_count; [|done].
      by destruct (truthy_str d'). }
    repeat split.
    unfold ha_get_entities, result_text, header. by rewrite !string_app_assoc.
Qed.

(** C2, as the code has it. For every state list and every limit
    [n >= 0], [get_entities(limit=n)] formats at most [n] entity lines,
    and the annotation is present if and only if the filtered count
    exceeds [n]; when present it reads "(showing first n)". *)
Theorem get_entities_limit states domain (n : Z) :
  0 <= n ->
  Z.of_nat (length (lines states domain n)) <= n
  /\ (showing states domain n <> ""
      <-> n < Z.of_nat (length (filtered states domain)))
  /\ (n < Z.of_nat (length (filtered states domain)) ->
      showing states domain n = " (showing first " ++ pretty n ++ ")").
Proof.
  intros Hn. unfold lines, showing.
  rewrite length_map, limited_nonneg, length_take by done.
  split; [lia|].
  destruct (Nat.ltb_spec (Z.to_nat n `min` length (filtered states domain))
              (length (filtered states domain))) as [Hlt|Hge].
  - split; [split; [lia | done]|]. intros _.
    rewrite Nat.min_l by lia. by rewrite <- pretty_of_nat, Z2Nat.id.
  - split; [split; [done | lia] | lia].
Qed.

End GetEntitiesProperties.

(** The header of a domain query counts the filtered entities: one
    light among two states is reported as 1, not 2. *)
Lemma get_entities_header_counts_filtered :
  let states := [ Fixture.entity "light.kitchen" "on";
                  Fixture.entity "sensor.temperature" "21.5" ] in
  GetEntities.header states (Some "light") = "Found 1 light entities"
  /\ GetEntities.header_count states (Some "light") <> length states.
Proof. vm_compute. split; [reflexivity | discriminate]. Qed.

(** A domain that itself contains the separator keeps identifiers whose
    prefix before the first separator is shorter than the domain. *)
Example get_entities_dotted_domain :
  let s := Fixture.entity "a.b.c" "on" in
  GetEntities.limited [s] (Some "a.b") 200 = [s]
  /\ Spec.domain_of (entity_id s) = "a".
Proof. by vm_compute. Qed.

(** The scenario of the specification: three lights among eight states. *)
Example get_entities_scenario :
  ha_get_entities Fixture.states (Some "light") 200
  = "Found 3 light entities:" ++ LF ++ LF
      ++ "light.kitchen — on (Kitchen)" ++ LF
      ++ "light.hall — off (light.hall)" ++ LF
      ++ "light.porch — on (Porch)".
Proof. by vm_compute. Qed.

Lemma get_entities_domain_filter_witness :
  "light" <> "" /\ includes "light" "." = false
  /\ (forall s, s ∈ GetEntities.limited Fixture.states (Some "light") 200 ->
        s ∈ Fixture.states /\ Spec.domain_of (entity_id s) = "light")
  /\ GetEntities.header_count Fixture.states (Some "light") = 3%nat.
Proof.
  split; [done|]. split; [reflexivity|].
  destruct (get_entities_domain_filter Fixture.states "light" 200)
    as (Honly & _ & _ & Hcount & _); [done | reflexivity |].
  split; [exact Honly | exact Hcount].
Defined.

(** With a negative limit [slice(0, limit)] drops entries from the end:
    three states and limit -1 give two lines, and no state gives no
    annotation although the count 0 exceeds -1. *)
Lemma get_entities_negative_limit :
  length (GetEntities.lines (take 3 Fixture.states) None (-1)) = 2%nat
  /\ ~ (Z.of_nat 2 <= -1)
  /\ GetEntities.showing [] None (-1) = ""
  /\ -1 < Z.of_nat (length (GetEntities.filtered [] None)).
Proof.
  split; [by vm_compute|]. split; [lia|]. split; [by vm_compute | done].
Qed.

Lemma get_entities_limit_witness :
  0 <= 2
  /\ Z.of_nat (length (GetEntities.lines Fixture.states (Some "light") 2)) <= 2
  /\ GetEntities.showing Fixture.states (Some "light") 2 = " (showing first 2)".
Proof.
  split; [lia|].
  destruct (get_entities_limit Fixture.states (Some "light") 2) as (Hle & _ & Hshow);
    [lia|].
  split; [exact Hle | apply Hshow; vm_compute; reflexivity].
Defined.

(* ================================================================== *)
(** ** The adapter: one request per call, and how it settles *)

Section AdapterProperties.
Variable token : option string.
Variable upstream : list FetchRequest -> FetchRequest -> Outcome Response.
Implicit Types (endpoint : string) (options : RequestOptions)
  (issued : list FetchRequest) (r : Response).

Lemma ok_success r : ok r = true <-> Spec.success_status (status r).
Proof. unfold ok, Spec.success_status. rewrite andb_true_iff, !Z.leb_le. done. Qed.

Lemma ok_failure r : ok r = false <-> ~ Spec.success_status (status r).
Proof. rewrite <- ok_success. by destruct (ok r). Qed.

(** Every adapter call hands exactly one request to [fetch] and settles
    on what comes back. *)
Lemma adapter_call_run api endpoint options issued :
  adapter_call token upstream api endpoint options issued
  = (settle api endpoint options
       (upstream issued (request_to (base_of api) token endpoint options)),
     (issued ++ [request_to (base_of api) token endpoint options])%list).
Proof.
  destruct api; unfold adapter_call, haApiRequest, supervisorApiRequest, bind, fetch;
    simpl;
    fold (request_to HA_API_BASE token endpoint options);
    fold (request_to SUPERVISOR_API_BASE token endpoint options).
  - destruct (upstream issued _) as [r|e]; [|done]. simpl.
    destruct (ok r); simpl; [|done].
    destruct (includes _ _); [done|].
    unfold as_text. by destruct (text r).
  - destruct (upstream issued _) as [r|e]; [|done]. simpl.
    destruct (ok r); simpl; [|done].
    destruct (default false (opt_rawResponse options)).
    { unfold as_text. by destruct (text r). }
    destruct (includes _ _); [done|].
    unfold as_text. by destruct (text r).
Qed.

Lemma haApiRequest_run endpoint options issued :
  haApiRequest token upstream endpoint options issued
  = (settle Core endpoint options
       (upstream issued (request_to HA_API_BASE token endpoint options)),
     (issued ++ [request_to HA_API_BASE token endpoint options])%list).
Proof. apply (adapter_call_run Core). Qed.

Lemma supervisorApiRequest_run endpoint options issued :
  supervisorApiRequest token upstream endpoint options issued
  = (settle Supervisor endpoint options
       (upstream issued (request_to SUPERVISOR_API_BASE token endpoint options)),
     (issued ++ [request_to SUPERVISOR_API_BASE token endpoint options])%list).
Proof. apply (adapter_call_run Supervisor). Qed.

(** C6, as the code has it. For every adapter call whose request the
    upstream answers with a response: if the status is outside 200-299
    the call throws an error carrying the method, the path, the status
    and the body text (the empty text when the body cannot be read); if
    the status is in 200-299 it returns the raw text when the call
    forces raw decoding ([rawResponse] of the supervisor variant), and
    otherwise the body decoded as JSON when the response declares a
    JSON content type and the raw text when it does not. *)
Theorem adapter_response api endpoint options issued r :
  upstream issued (request_to (base_of api) token endpoint options) = Returned r ->
  let outcome := fst (adapter_call token upstream api endpoint options issued) in
  (~ Spec.success_status (status r) ->
     outcome
     = Thrown (Error (label_of api ++ " " ++ default "GET" (opt_method options)
                        ++ " " ++ endpoint ++ " failed (" ++ pretty (status r)
                        ++ "): " ++ body_excerpt r)))
  /\ (Spec.success_status (status r) ->
        (raw_forced api options = true -> outcome = as_text r)
        /\ (raw_forced api options = false ->
              Spec.declares_json r -> outcome = json r)
        /\ (raw_forced api options = false ->
              ~ Spec.declares_json r -> outcome = as_text r)).
Proof.
  intros Hup outcome. subst outcome. rewrite adapter_call_run, Hup. simpl.
  split.
  - intros Hst. apply ok_failure in Hst. by rewrite Hst.
  - intros Hst. apply ok_success in Hst. rewrite Hst. simpl.
    unfold Spec.declares_json.
    split; [by intros -> |]. split; intros -> Hct.
    + by rewrite Hct.
    + by destruct (includes _ _).
Qed.

End AdapterProperties.

(** With [rawResponse] the supervisor variant returns the raw text of a
    2xx response although it declares a JSON content type. *)
Lemma supervisor_raw_ignores_content_type :
  let r := Fixture.as_json 200 "[1]" (JArr [JNum 1]) in
  Spec.success_status (status r) /\ Spec.declares_json r
  /\ fst (supervisorApiRequest None (Fixture.always r) "/core/logs" raw_options [])
     = Returned (JStr "[1]")
  /\ json r = Returned (JArr [JNum 1]).
Proof. split; [done|]. by vm_compute. Qed.

Lemma adapter_response_witness :
  fst (haApiRequest None (Fixture.always (Fixture.plain 404 "404: Not Found"))
         "/states" no_options [])
  = Thrown (Error "HA API GET /states failed (404): 404: Not Found").
Proof.
  destruct (adapter_response None (Fixture.always (Fixture.plain 404 "404: Not Found"))
              Core "/states" no_options [] (Fixture.plain 404 "404: Not Found"))
    as [Hfail _]; [reflexivity|].
  apply Hfail. unfold Spec.success_status. simpl. lia.
Defined.

(** A body that cannot be read leaves the excerpt empty. *)
Example adapter_unreadable_body :
  fst (supervisorApiRequest (Some "t") (Fixture.always (Fixture.unreadable 502))
         "/core/info" no_options [])
  = Thrown (Error "Supervisor API GET /core/info failed (502): ").
Proof. by vm_compute. Qed.

(* ================================================================== *)
(** ** ha_call_service: the merged body *)

Section CallService.
Variable token : option string.
Variable upstream : list FetchRequest -> FetchRequest -> Outcome Response.
Implicit Types (issued : list FetchRequest) (r : Response) (t : Target)
  (d : gmap string JsValue) (k : string).

Lemma assign_if_truthy_lookup key v (body : gmap string JsValue) k :
  assign_if_truthy key v body !! k
  = match v with
    | Some x => if decide (key = k) then
                  if truthy (target_json x) then Some (target_json x) else body !! k
                else body !! k
    | None => body !! k
    end.
Proof.
  unfold assign_if_truthy. destruct v as [x|]; [|done].
  destruct (truthy (target_json x)); [|by case_decide].
  rewrite lookup_insert. by case_decide.
Qed.

Lemma target_body_lookup t k :
  call_service_body (Some t) None !! k = target_entry t k.
Proof.
  unfold call_service_body, target_entry, target_field.
  rewrite !assign_if_truthy_lookup, lookup_empty.
  destruct t as [[e|] [a|] [dv|]]; simpl;
    repeat case_decide; simplify_eq; try done;
    repeat (match goal with |- context [truthy ?v] => destruct (truthy v) end); done.
Qed.

Lemma call_service_body_lookup t d k :
  call_service_body (Some t) (Some d) !! k
  = match delete "__proto__" d !! k with
    | Some v => Some v
    | None => target_entry t k
    end.
Proof.
  rewrite <- target_body_lookup.
  unfold call_service_body, Object_assign.
  destruct (delete "__proto__" d !! k) as [v|] eqn:Hd.
  - by apply lookup_union_Some_l.
  - by rewrite lookup_union_r.
Qed.

(** The keys the target writes are its three field names. *)
Lemma target_field_key t k x : target_field t k = Some x -> k <> "__proto__".
Proof. unfold target_field. by repeat case_decide; intros ? ->. Qed.

Lemma call_service_issues domain service target data issued :
  snd (ha_call_service token upstream domain service target data issued)
  = (issued ++ [request_to HA_API_BASE token ("/services/" ++ domain ++ "/" ++ service)
                 (call_service_options (call_service_body target data))])%list.
Proof.
  unfold ha_call_service, bind. rewrite haApiRequest_run.
  by destruct (settle _ _ _ _).
Qed.

Lemma call_service_sent (body : gmap string JsValue) endpoint :
  body_json (request_to HA_API_BASE token endpoint (call_service_options body))
  = if decide (body = ∅) then None else Some (JObj body).
Proof.
  unfold request_to, call_service_options. simpl.
  case_decide as Hb.
  - subst. by rewrite map_size_empty.
  - destruct (Nat.ltb_spec 0 (size body)) as [_|Hs]; [done|].
    assert (size body = 0%nat) as Hz%map_size_empty_inv by lia. done.
Qed.

(** C5, as the code has it. When [target] and [data] are both present,
    the merged body carries every key of [data] other than
    ["__proto__"] with the value from [data] (so [data] wins on a key
    both define), and every field of [target] whose value is truthy and
    whose key [data] does not define; it never has a key ["__proto__"];
    a non-empty merged body is the body of the one request the handler
    issues. *)
Theorem call_service_merge domain service t d issued :
  let body := call_service_body (Some t) (Some d) in
  (forall k v, k <> "__proto__" -> d !! k = Some v -> body !! k = Some v)
  /\ (forall k x, target_field t k = Some x -> truthy (target_json x) = true ->
        d !! k = None -> body !! k = Some (target_json x))
  /\ body !! "__proto__" = None
  /\ (body <> ∅ ->
      exists req,
        snd (ha_call_service token upstream domain service (Some t) (Some d) issued)
        = (issued ++ [req])%list
        /\ body_json req = Some (JObj body)).
Proof.
  intros body. subst body. split; [|split; [|split]].
  - intros k v Hk Hd. by rewrite call_service_body_lookup, lookup_delete_ne, Hd.
  - intros k x Hf Ht Hd. rewrite call_service_body_lookup.
    rewrite lookup_delete_ne by (symmetry; by eapply target_field_key).
    rewrite Hd. unfold target_entry. by rewrite Hf, Ht.
  - by rewrite call_service_body_lookup, lookup_delete_eq.
  - intros Hne. eexists. split; [apply call_service_issues|].
    rewrite call_service_sent. by case_decide.
Qed.

(** C10. A target field whose value is falsy contributes nothing to the
    merged body: under its key the body holds what [data] holds, if
    anything. When the merged body has no keys the handler issues its
    POST without a request body. *)
Theorem call_service_falsy_target domain service target data issued :
  (forall t k x, target = Some t -> target_field t k = Some x ->
     truthy (target_json x) = false ->
     call_service_body target data !! k = data ≫= (.!! k))
  /\ (call_service_body target data = ∅ ->
      exists req,
        snd (ha_call_service token upstream domain service target data issued)
        = (issued ++ [req])%list
        /\ method req = "POST" /\ body_json req = None).
Proof.
  split.
  - intros t k x -> Hf Hx. destruct data as [d|].
    + rewrite call_service_body_lookup.
      rewrite lookup_delete_ne by (symmetry; by eapply target_field_key).
      unfold target_entry. rewrite Hf, Hx. simpl. by destruct (d !! k).
    + rewrite target_body_lookup. unfold target_entry. by rewrite Hf, Hx.
  - intros Hb. eexists. split; [apply call_service_issues|].
    split; [done|]. rewrite call_service_sent. by case_decide.
Qed.

End CallService.

(** A target field holding the empty string is dropped although the key
    sets of [target] and [data] are disjoint. *)
Lemma call_service_drops_falsy_target :
  target_field Fixture.empty_target "entity_id" = Some (One "")
  /\ Fixture.brightness !! "entity_id" = None
  /\ call_service_body (Some Fixture.empty_target) (Some Fixture.brightness)
       !! "entity_id" = None
  /\ call_service_body (Some Fixture.empty_target) (Some Fixture.brightness)
     = Fixture.brightness.
Proof. repeat split; by vm_compute. Qed.

(** A key ["__proto__"] of [data] does not reach the body. *)
Example call_service_proto_key :
  call_service_body None (Some {[ "__proto__" := JObj ∅ ]}) = ∅
  /\ opt_body (call_service_options
                 (call_service_body None (Some {[ "__proto__" := JObj ∅ ]}))) = None.
Proof. split; by vm_compute. Qed.

Lemma call_service_merge_witness :
  call_service_body (Some Fixture.kitchen) (Some Fixture.brightness) !! "brightness_pct"
  = Some (JNum 80)
  /\ call_service_body (Some Fixture.kitchen) (Some Fixture.brightness) !! "entity_id"
     = Some (JStr "light.kitchen").
Proof.
  destruct (call_service_merge None (Fixture.always (Fixture.plain 200 "[]"))
              "light" "turn_on" Fixture.kitchen Fixture.brightness [])
    as (Hdata & Htarget & _).
  split; [by apply Hdata | by apply (Htarget "entity_id" (One "light.kitchen"))].
Defined.

Lemma call_service_falsy_target_witness :
  call_service_body (Some Fixture.empty_target) None = ∅
  /\ exists req,
       snd (ha_call_service None (Fixture.always (Fixture.plain 200 "[]"))
              "light" "turn_on" (Some Fixture.empty_target) None [])
       = [req]
       /\ method req = "POST" /\ body_json req = None.
Proof.
  split; [by vm_compute|].
  apply (call_service_falsy_target None (Fixture.always (Fixture.plain 200 "[]"))
           "light" "turn_on" (Some Fixture.empty_target) None []).
  by vm_compute.
Defined.

(* ================================================================== *)
(** ** Rounding to the nearest double *)

Section DoubleArithmetic.
Import Double.
#[local] Open Scope Q_scope.

(** *** The error of one rounding *)

Lemma nearest_even_close (r : Q) :
  - (1 # 2) <= inject_Z (nearest_even r) - r <= 1 # 2.
Proof.
  unfold nearest_even.
  pose proof (Qfloor_le r) as Hlo. pose proof (Qlt_floor r) as Hhi.
  rewrite inject_Z_plus in Hhi. change (inject_Z 1) with 1 in Hhi.
  destruct (Qcompare_spec (r - inject_Z (Qfloor r)) (1 # 2)) as [Heq|Hlt|Hgt].
  - destruct (Z.even (Qfloor r)); [|rewrite inject_Z_plus; change (inject_Z 1) with 1]; lra.
  - lra.
  - rewrite inject_Z_plus. change (inject_Z 1) with 1. lra.
Qed.

Lemma ulp_pos (q : Q) : 0 < ulp q.
Proof. unfold ulp. apply Qpower_0_lt. lra. Qed.

(** The nearest double is within half a unit in the last place. *)
Lemma nearest_close (q : Q) :
  - ((1 # 2) * ulp q) <= nearest q - q <= (1 # 2) * ulp q.
Proof.
  pose proof (ulp_pos q) as Hu. unfold nearest.
  pose proof (nearest_even_close (q / ulp q)) as [Hlo Hhi].
  set (n := inject_Z (nearest_even (q / ulp q))) in *.
  assert (q == q / ulp q * ulp q) as Hq by (field; lra).
  set (r := q / ulp q) in *.
  assert (- (1 # 2) * ulp q <= (n - r) * ulp q) as H1
    by (apply Qmult_le_compat_r; lra).
  assert ((n - r) * ulp q <= (1 # 2) * ulp q) as H2
    by (apply Qmult_le_compat_r; lra).
  split; lra.
Qed.

(** A power of two with a difference of non-negative exponents. *)
Lemma pow2_minus (u v : Z) :
  (0 <= u)%Z -> (0 <= v)%Z -> 2 ^ (u - v) == inject_Z (2 ^ u) / inject_Z (2 ^ v).
Proof.
  intros Hu Hv. rewrite Qpower_minus by lra.
  by rewrite !Zpower_Qpower.
Qed.

Lemma ratio_le (a b c d : Z) :
  (0 < b)%Z -> (0 < d)%Z -> (a * d <= c * b)%Z ->
  inject_Z a / inject_Z b <= inject_Z c / inject_Z d.
Proof.
  intros Hb Hd H.
  assert (0 < inject_Z b) as Hb' by (rewrite Zlt_Qlt in Hb; exact Hb).
  assert (0 < inject_Z d) as Hd' by (rewrite Zlt_Qlt in Hd; exact Hd).
  apply Qle_shift_div_l; [done|].
  assert (inject_Z a / inject_Z b * inject_Z d == inject_Z (a * d) / inject_Z b) as ->
    by (rewrite inject_Z_mult; field; lra).
  apply Qle_shift_div_r; [done|].
  rewrite <- inject_Z_mult. by rewrite <- Zle_Qle.
Qed.

Lemma ratio_lt (a b c d : Z) :
  (0 < b)%Z -> (0 < d)%Z -> (a * d < c * b)%Z ->
  inject_Z a / inject_Z b < inject_Z c / inject_Z d.
Proof.
  intros Hb Hd H.
  assert (0 < inject_Z b) as Hb' by (rewrite Zlt_Qlt in Hb; exact Hb).
  assert (0 < inject_Z d) as Hd' by (rewrite Zlt_Qlt in Hd; exact Hd).
  apply Qlt_shift_div_l; [done|].
  assert (inject_Z a / inject_Z b * inject_Z d == inject_Z (a * d) / inject_Z b) as ->
    by (rewrite inject_Z_mult; field; lra).
  apply Qlt_shift_div_r; [done|].
  rewrite <- inject_Z_mult. by rewrite <- Zlt_Qlt.
Qed.

(** [exponent q] is the binary exponent of a positive rational. *)
Lemma exponent_spec (q : Q) :
  0 < q -> 2 ^ exponent q <= q /\ q < 2 ^ (exponent q + 1).
Proof.
  intros Hq. destruct q as [n d]. unfold exponent. simpl Qnum. simpl Qden.
  assert (0 < n)%Z as Hn by (unfold Qlt in Hq; simpl in Hq; lia).
  pose proof (Z.log2_spec n Hn) as [Hn1 Hn2].
  pose proof (Z.log2_spec (Z.pos d) (Pos2Z.is_pos d)) as [Hd1 Hd2].
  pose proof (Z.log2_nonneg n) as Ha. pose proof (Z.log2_nonneg (Z.pos d)) as Hb.
  set (a := Z.log2 n) in *. set (b := Z.log2 (Z.pos d)) in *.
  assert (0 < 2 ^ a)%Z as Hpa by (apply Z.pow_pos_nonneg; lia).
  assert (0 < 2 ^ b)%Z as Hpb by (apply Z.pow_pos_nonneg; lia).
  assert (2 ^ Z.succ a = 2 * 2 ^ a)%Z as Hsa by (apply Z.pow_succ_r; lia).
  assert (2 ^ Z.succ b = 2 * 2 ^ b)%Z as Hsb by (apply Z.pow_succ_r; lia).
  destruct (Qle_bool (2 ^ (a - b)) (n # d)) eqn:Htest.
  - apply Qle_bool_iff in Htest. split; [done|].
    replace (a - b + 1)%Z with (Z.succ a - b)%Z by lia.
    rewrite pow2_minus by lia. rewrite (Qmake_Qdiv n d).
    apply ratio_lt; [lia | lia | nia].
  - assert (~ 2 ^ (a - b) <= n # d) as Hnot
      by (intros H%Qle_bool_iff; congruence).
    apply Qnot_le_lt in Hnot. split.
    + replace (a - b - 1)%Z with (a - Z.succ b)%Z by lia.
      rewrite pow2_minus by lia. rewrite (Qmake_Qdiv n d).
      apply ratio_le; [lia | lia | nia].
    + by replace (a - b - 1 + 1)%Z with (a - b)%Z by lia.
Qed.

Lemma ulp_le (q : Q) :
  ~ q == 0 -> ulp q <= (1 # 4503599627370496) * Qabs q + 2 ^ (-1074).
Proof.
  intros Hq.
  assert (0 < Qabs q) as Hpos.
  { pose proof (Qabs_nonneg q). destruct (Qeq_dec (Qabs q) 0) as [H0|H0]; [|lra].
    exfalso. apply Hq. revert H0. apply Qabs_case; intros; lra. }
  destruct (exponent_spec (Qabs q) Hpos) as [Hlo _].
  unfold ulp. set (e := exponent (Qabs q)) in *.
  assert (0 < 2 ^ (-1074)) as Heta by (apply Qpower_0_lt; lra).
  destruct (Z.max_spec e (-1022)) as [[Hlt ->]|[Hge ->]].
  - change (-1022 - 52)%Z with (-1074)%Z.
    assert (0 <= (1 # 4503599627370496) * Qabs q) by (apply Qmult_le_0_compat; lra).
    lra.
  - rewrite Qpower_minus by lra.
    assert (2 ^ 52 == 4503599627370496) as -> by reflexivity.
    assert (2 ^ e / 4503599627370496 == (1 # 4503599627370496) * 2 ^ e) as ->
      by field.
    lra.
Qed.

Lemma nearest_zero (q : Q) : q == 0 -> nearest q == 0.
Proof.
  intros Hq. unfold nearest.
  assert (q / ulp q == 0) as Hr.
  { pose proof (ulp_pos q). unfold Qdiv. setoid_rewrite Hq at 1. ring. }
  assert (Qfloor (q / ulp q) = 0%Z) as Hf by (by rewrite (Qfloor_comp _ _ Hr)).
  unfold nearest_even. rewrite Hf.
  set (r := q / ulp q) in *.
  assert (Qcompare (r - inject_Z 0) (1 # 2) = Lt) as ->
    by (apply (proj1 (Qlt_alt _ _)); change (inject_Z 0) with 0; lra).
  change (inject_Z 0) with 0. ring.
Qed.

(** The error of one rounding, for a value of magnitude at most [b]. *)
Lemma nearest_within (q b : Q) :
  - b <= q <= b ->
  - ((1 # 9007199254740992) * b + (1 # 1000000000))
  <= nearest q - q
  <= (1 # 9007199254740992) * b + (1 # 1000000000).
Proof.
  intros [Hlo Hhi].
  destruct (Qeq_dec q 0) as [Hq|Hq].
  - pose proof (nearest_zero q Hq). lra.
  - pose proof (nearest_close q) as [H1 H2]. pose proof (ulp_le q Hq) as Hu.
    assert (Qabs q <= b) as Hb by (apply Qabs_Qle_condition; split; lra).
    assert (2 ^ (-1074) <= 1 # 1000000000) as Heta
      by (apply Qle_bool_iff; vm_compute; reflexivity).
    split; lra.
Qed.

(** Below 10^30 nothing overflows. *)
Lemma round_within (q b : Q) :
  - b <= q <= b -> b <= 1000000000000000000000000000000 ->
  exists y,
    round q = Finite y
    /\ - ((1 # 9007199254740992) * b + (1 # 1000000000))
       <= y - q
       <= (1 # 9007199254740992) * b + (1 # 1000000000).
Proof.
  intros Hq Hb. pose proof (nearest_within q b Hq) as Hn.
  exists (nearest q). split; [|done].
  assert (3000000000000000000000000000000 <= 2 ^ 1024) as Hbig
    by (apply Qle_bool_iff; vm_compute; reflexivity).
  unfold round.
  destruct (Qle_bool (2 ^ 1024) (nearest q)) eqn:H1.
  { apply Qle_bool_iff in H1. lra. }
  destruct (Qle_bool (nearest q) (- 2 ^ 1024)) eqn:H2.
  { apply Qle_bool_iff in H2. lra. }
  done.
Qed.

Lemma truncate_close (d : Q) : - 1 < inject_Z (truncate d) - d < 1.
Proof.
  unfold truncate.
  pose proof (Qfloor_le d). pose proof (Qlt_floor d) as Hf.
  pose proof (Qle_ceiling d). pose proof (Qceiling_lt d) as Hc.
  rewrite inject_Z_plus in Hf.
  replace (Qceiling d - 1)%Z with (Qceiling d + -1)%Z in Hc by lia.
  rewrite inject_Z_plus in Hc.
  change (inject_Z 1) with 1 in Hf. change (inject_Z (-1)) with (- (1)) in Hc.
  destruct (Qle_bool 0 d); split; lra.
Qed.

(** The value [now - hours * 60 * 60 * 1000] as the doubles compute it. *)
Lemma start_value (now h : Q) :
  - 8640000000000000 <= now <= 8640000000000000 ->
  - 8639999999999992 <= now - h * 3600000 <= 8639999999999992 ->
  exists d,
    sub (Finite now) (mul (mul (mul (Finite h) (Finite 60)) (Finite 60)) (Finite 1000))
    = Finite d
    /\ - 7 < d - (now - h * 3600000) < 7
    /\ - 8640000000000000 < d < 8640000000000000.
Proof.
  intros Hnow Hex. simpl.
  destruct (round_within (h * 60) 288000000000) as (p1 & -> & H1); [lra | lra |].
  simpl.
  destruct (round_within (p1 * 60) 17280000000001) as (p2 & -> & H2); [lra | lra |].
  simpl.
  destruct (round_within (p2 * 1000) 17280000000001000) as (p3 & -> & H3);
    [lra | lra |].
  simpl.
  destruct (round_within (now - p3) 8640000000000000) as (d & -> & H4); [lra | lra |].
  exists d. split; [done|]. lra.
Qed.

(** *** Integers that are doubles *)

Lemma nearest_even_integer (r : Q) (m : Z) : r == inject_Z m -> nearest_even r = m.
Proof.
  intros Hr. unfold nearest_even.
  rewrite (Qfloor_comp _ _ Hr), Qfloor_Z.
  assert (Qcompare (r - inject_Z m) (1 # 2) = Lt) as ->
    by (apply (proj1 (Qlt_alt _ _)); lra).
  done.
Qed.

(** A multiple of the unit in the last place is a double. *)
Lemma nearest_multiple (q : Q) (m : Z) : q == inject_Z m * ulp q -> nearest q == q.
Proof.
  intros Hq. pose proof (ulp_pos q) as Hu. unfold nearest.
  set (u := ulp q) in *.
  assert (q / u == inject_Z m) as Hr by (rewrite Hq; field; lra).
  rewrite (nearest_even_integer _ _ Hr). by rewrite Hq.
Qed.

(** An integer below [2^(53+k)] in magnitude that [2^k] divides is a double. *)
Lemma nearest_exact (q : Q) (z k : Z) :
  q == inject_Z z -> (0 <= k)%Z -> (2 ^ k | z)%Z -> (Z.abs z < 2 ^ (53 + k))%Z ->
  nearest q == inject_Z z.
Proof.
  intros Hq Hk Hdiv Hlt.
  destruct (Z.eq_dec z 0%Z) as [->|Hz].
  { rewrite (nearest_zero q Hq). reflexivity. }
  assert (Qabs q == inject_Z (Z.abs z)) as Habs by (by rewrite Hq).
  assert (1 <= Qabs q) as H1.
  { rewrite Habs. change 1 with (inject_Z 1). rewrite <- Zle_Qle. lia. }
  assert (Qabs q < 2 ^ (53 + k)) as H2.
  { rewrite Habs. assert (2 ^ (53 + k) == inject_Z (2 ^ (53 + k))) as ->
      by (rewrite Zpower_Qpower by lia; reflexivity).
    rewrite <- Zlt_Qlt. lia. }
  destruct (exponent_spec (Qabs q)) as [Hlo Hhi]; [lra|].
  assert (nearest q == q) as ->; [|done].
  unfold ulp in *. set (e := exponent (Qabs q)) in *.
  assert (0 <= e)%Z as He.
  { assert (2 ^ 0 < 2 ^ (e + 1)) as H by (change (2 ^ 0) with 1; lra).
    pose proof (Qpower_lt_compat_l_inv 2 0 (e + 1) H ltac:(lra)). lia. }
  assert (e < 53 + k)%Z as He'.
  { assert (2 ^ e < 2 ^ (53 + k)) as H by lra.
    pose proof (Qpower_lt_compat_l_inv 2 e (53 + k) H ltac:(lra)). lia. }
  destruct (Z.le_gt_cases (e - 52) 0) as [Hj|Hj].
  - apply (nearest_multiple q (z * 2 ^ (52 - e))).
    unfold ulp. fold e. rewrite Z.max_l by lia.
    assert (inject_Z (2 ^ (52 - e)) * 2 ^ (e - 52) == 1) as Hone.
    { rewrite Zpower_Qpower by lia. change (inject_Z 2) with 2.
      rewrite <- Qpower_plus by lra.
      by replace (52 - e + (e - 52))%Z with 0%Z by lia. }
    rewrite inject_Z_mult, <- Qmult_assoc, Hone, Hq. ring.
  - assert (2 ^ (e - 52) | z)%Z as [m Hm].
    { apply Z.divide_trans with (2 ^ k)%Z; [|done].
      exists (2 ^ (k - (e - 52)))%Z. rewrite <- Z.pow_add_r by lia. f_equal. lia. }
    apply (nearest_multiple q m).
    unfold ulp. fold e. rewrite Z.max_l by lia.
    rewrite Hq, Hm, inject_Z_mult, Zpower_Qpower by lia. by change (inject_Z 2) with 2.
Qed.

Lemma truncate_integer (d : Q) (z : Z) : d == inject_Z z -> truncate d = z.
Proof.
  intros Hd. unfold truncate.
  rewrite (Qfloor_comp _ _ Hd), (Qceiling_comp _ _ Hd), Qfloor_Z, Qceiling_Z.
  by destruct (Qle_bool 0 d).
Qed.

Lemma round_exact (q : Q) (z k : Z) :
  q == inject_Z z -> (0 <= k)%Z -> (2 ^ k | z)%Z -> (Z.abs z < 2 ^ (53 + k))%Z ->
  (k <= 10)%Z ->
  exists y, round q = Finite y /\ y == inject_Z z.
Proof.
  intros Hq Hk Hdiv Hlt Hk10.
  pose proof (nearest_exact q z k Hq Hk Hdiv Hlt) as Hn.
  exists (nearest q). split; [|done].
  assert (Z.abs z < 2 ^ 63)%Z as Hb.
  { eapply Z.lt_le_trans; [exact Hlt|]. apply Z.pow_le_mono_r; lia. }
  assert (- inject_Z (2 ^ 63) < nearest q < inject_Z (2 ^ 63)) as [Hb1 Hb2].
  { rewrite Hn. rewrite <- inject_Z_opp, <- !Zlt_Qlt. lia. }
  assert (inject_Z (2 ^ 63) <= 2 ^ 1024) as Hbig
    by (apply Qle_bool_iff; vm_compute; reflexivity).
  unfold round.
  destruct (Qle_bool (2 ^ 1024) (nearest q)) eqn:H1.
  { apply Qle_bool_iff in H1. lra. }
  destruct (Qle_bool (nearest q) (- 2 ^ 1024)) eqn:H2.
  { apply Qle_bool_iff in H2. lra. }
  done.
Qed.

(** The products [hours * 60 * 60 * 1000] are exact for an integral
    [hours] below 2 * 10^10 in magnitude. *)
Lemma products_integral (h : Z) (hours : Q) :
  hours == inject_Z h -> (Z.abs h <= 20000000000)%Z ->
  exists p,
    mul (mul (mul (Finite hours) (Finite 60)) (Finite 60)) (Finite 1000) = Finite p
    /\ p == inject_Z (h * 3600000).
Proof.
  intros Hh Hb. simpl.
  destruct (round_exact (hours * 60) (h * 60) 0) as (p1 & -> & H1).
  { by rewrite Hh, inject_Z_mult. } { lia. } { apply Z.divide_1_l. }
  { change (2 ^ (53 + 0))%Z with 9007199254740992%Z. lia. } { lia. }
  simpl.
  destruct (round_exact (p1 * 60) (h * 3600) 0) as (p2 & -> & H2).
  { rewrite H1, <- (inject_Z_mult _ 60).
    replace (h * 60 * 60)%Z with (h * 3600)%Z by lia. reflexivity. }
  { lia. } { apply Z.divide_1_l. }
  { change (2 ^ (53 + 0))%Z with 9007199254740992%Z. lia. } { lia. }
  simpl.
  destruct (round_exact (p2 * 1000) (h * 3600000) 3) as (p3 & -> & H3).
  { rewrite H2, <- (inject_Z_mult _ 1000).
    replace (h * 3600 * 1000)%Z with (h * 3600000)%Z by lia. reflexivity. }
  { lia. } { exists (h * 450000)%Z. lia. }
  { change (2 ^ (53 + 3))%Z with 72057594037927936%Z. lia. } { lia. }
  by exists p3.
Qed.

(** For integral hours the four roundings are exact. *)
Lemma start_value_integral (now h : Z) (hours : Q) :
  hours == inject_Z h ->
  (Z.abs now <= 8640000000000000)%Z ->
  (Z.abs (now - h * 3600000) <= 8640000000000000)%Z ->
  exists d,
    sub (Finite (inject_Z now))
        (mul (mul (mul (Finite hours) (Finite 60)) (Finite 60)) (Finite 1000))
    = Finite d
    /\ d == inject_Z (now - h * 3600000).
Proof.
  intros Hh Hnow Hex.
  destruct (products_integral h hours) as (p & -> & Hp); [done | lia |].
  simpl.
  destruct (round_exact (inject_Z now - p) (now - h * 3600000) 0) as (d & -> & Hd).
  { rewrite Hp. unfold Z.sub. by rewrite inject_Z_plus, inject_Z_opp. }
  { lia. } { apply Z.divide_1_l. }
  { change (2 ^ (53 + 0))%Z with 9007199254740992%Z. lia. } { lia. }
  by exists d.
Qed.

(** Bounds on an integer, read as bounds on a rational. *)
Lemma inject_Z_abs_le (z m : Z) :
  (Z.abs z <= m)%Z <-> - inject_Z m <= inject_Z z <= inject_Z m.
Proof. rewrite <- inject_Z_opp, <- !Zle_Qle. lia. Qed.

(** *** Beyond the range of a [Date] *)

Lemma Qle_bool_false (x y : Q) : Qle_bool x y = false <-> y < x.
Proof.
  split.
  - intros H. apply Qnot_le_lt. intros Hle%Qle_bool_iff. congruence.
  - intros H. destruct (Qle_bool x y) eqn:E; [|done].
    apply Qle_bool_iff in E. lra.
Qed.

(** One rounding loses at most a factor [1 - 2^-52] of the magnitude. *)
Lemma round_beyond (q b : Q) :
  1 <= b -> b <= q \/ q <= - b ->
  beyond (b * (1 - (1 # 4503599627370496))) (round q).
Proof.
  intros Hb Hq. pose proof (nearest_close q) as [H1 H2].
  assert (~ q == 0) as Hq0 by (intros H0; destruct Hq; lra).
  pose proof (ulp_le q Hq0) as Hu.
  assert (2 ^ (-1074) <= 1 # 1152921504606846976) as Heta
    by (apply Qle_bool_iff; vm_compute; reflexivity).
  unfold round.
  destruct (Qle_bool (2 ^ 1024) (nearest q)); [done|].
  destruct (Qle_bool (nearest q) (- 2 ^ 1024)); [done|].
  simpl. destruct Hq as [Hq|Hq].
  - left. rewrite Qabs_pos in Hu by lra. lra.
  - right. rewrite Qabs_neg in Hu by lra. lra.
Qed.

Lemma beyond_weaken (b b' : Q) (x : number) : b' <= b -> beyond b x -> beyond b' x.
Proof. intros Hb. destruct x; simpl; [|done..]. intros [H|H]; [left|right]; lra. Qed.

Lemma mul_beyond (x : number) (b c : Q) :
  0 < c -> 1 <= b * c -> beyond b x ->
  beyond (b * c * (1 - (1 # 4503599627370496))) (mul x (Finite c)).
Proof.
  intros Hc Hbc Hx. destruct x as [y| | |]; simpl in *; [| | |done].
  - apply round_beyond; [done|]. destruct Hx as [H|H]; [left|right].
    + apply Qmult_le_compat_r; lra.
    + assert (y * c <= (- b) * c) by (apply Qmult_le_compat_r; lra). lra.
  - by rewrite (proj1 (Qgt_alt c 0) Hc).
  - by rewrite (proj1 (Qgt_alt c 0) Hc).
Qed.

Lemma sub_beyond (now : Q) (x : number) (b m : Q) :
  - m <= now <= m -> 1 <= b - m -> beyond b x ->
  beyond ((b - m) * (1 - (1 # 4503599627370496))) (sub (Finite now) x).
Proof.
  intros Hnow Hb Hx. destruct x as [y| | |]; simpl in *; [|done..].
  apply round_beyond; [done|]. destruct Hx as [H|H]; [right|left]; lra.
Qed.

Lemma new_Date_beyond (x : number) (b : Q) :
  inject_Z JsDate.maxTime < b -> beyond b x -> JsDate.new_Date_number x = None.
Proof.
  intros Hb Hx. destruct x as [y| | |]; simpl in *; [|done..].
  assert (Qle_bool (Qabs y) (inject_Z JsDate.maxTime) = false) as ->; [|done].
  change (inject_Z JsDate.maxTime) with 8640000000000000 in *.
  apply Qle_bool_false. destruct Hx as [H|H].
  - rewrite Qabs_pos by lra. lra.
  - rewrite Qabs_neg by lra. lra.
Qed.

(** On integral hours the computation on doubles is the integer
    computation, within the range of a [Date] and beyond it. *)
Lemma history_start_double_integral (now h : Z) :
  (Z.abs now <= JsDate.maxTime)%Z ->
  history_start_double now (Finite (inject_Z h)) = history_start now h.
Proof.
  intros Hnow. unfold JsDate.maxTime in Hnow.
  pose proof (proj1 (inject_Z_abs_le now 8640000000000000) Hnow) as Hnow'.
  change (inject_Z 8640000000000000) with 8640000000000000 in Hnow'.
  unfold history_start, JsDate.new_Date, history_start_double.
  replace (now - h * 60 * 60 * 1000)%Z with (now - h * 3600000)%Z by lia.
  destruct (Z.leb_spec (Z.abs (now - h * 3600000)) JsDate.maxTime) as [Hin|Hout].
  - destruct (start_value_integral now h (inject_Z h)) as (d & -> & Hd);
      [done | done | done |].
    unfold JsDate.new_Date_number.
    assert (Qle_bool (Qabs d) (inject_Z JsDate.maxTime) = true) as ->.
    { apply Qle_bool_iff, Qabs_Qle_condition. rewrite Hd.
      by apply inject_Z_abs_le. }
    by rewrite (truncate_integer d _ Hd).
  - unfold JsDate.maxTime in Hout.
    destruct (Z.le_gt_cases (Z.abs h) 20000000000) as [Hh|Hh].
    + destruct (products_integral h (inject_Z h)) as (p & -> & Hp); [done | done |].
      assert (inject_Z now - p == inject_Z (now - h * 3600000)) as He.
      { rewrite Hp. unfold Z.sub. by rewrite inject_Z_plus, inject_Z_opp. }
      destruct (Z.lt_ge_cases (Z.abs (now - h * 3600000)) 9007199254740992)
        as [Hsmall|Hlarge].
      * simpl.
        destruct (round_exact (inject_Z now - p) (now - h * 3600000) 0)
          as (d & -> & Hd); [done | lia | apply Z.divide_1_l | done | lia |].
        apply (new_Date_beyond _ (inject_Z (Z.abs (now - h * 3600000)))).
        { rewrite <- Zlt_Qlt. by unfold JsDate.maxTime. }
        simpl. rewrite Hd, <- inject_Z_opp, <- !Zle_Qle. lia.
      * apply (new_Date_beyond _ (9007199254740992 * (1 - (1 # 4503599627370496)))).
        { change (inject_Z JsDate.maxTime) with 8640000000000000. lra. }
        simpl. apply round_beyond; [lra|]. rewrite He.
        change 9007199254740992 with (inject_Z 9007199254740992).
        rewrite <- inject_Z_opp, <- !Zle_Qle. lia.
    + eapply new_Date_beyond;
        [|apply sub_beyond with (m := 8640000000000000);
          [done| |apply mul_beyond; [| |apply mul_beyond; [| |apply mul_beyond;
             [| |apply (beyond_weaken 20000000000 20000000000); [lra|]]]]]].
      all: try (change (inject_Z JsDate.maxTime) with 8640000000000000; lra).
      simpl. change 20000000000 with (inject_Z 20000000000).
      rewrite <- inject_Z_opp, <- !Zle_Qle. lia.
Qed.

End DoubleArithmetic.

(* ================================================================== *)
(** ** The handlers that call the adapter *)

Section HandlerProperties.
Variable token : option string.
Variable upstream : list FetchRequest -> FetchRequest -> Outcome Response.
Implicit Types (issued : list FetchRequest) (r : Response).

(** A handler that awaits one call of the core adapter and then
    returns a fixed text. *)
Lemma call_then_return endpoint options (answer : string) issued :
  (_ <- haApiRequest token upstream endpoint options ;; ret answer) issued
  = (match settle Core endpoint options
             (upstream issued (request_to HA_API_BASE token endpoint options)) with
     | Returned _ => Returned answer
     | Thrown e => Thrown e
     end,
     (issued ++ [request_to HA_API_BASE token endpoint options])%list).
Proof. unfold bind. rewrite haApiRequest_run. by destruct (settle _ _ _ _). Qed.

(** C4. [restart(confirm=false)] issues no request and returns the
    cancellation text; [restart(confirm=true)] issues exactly one
    request, a POST to the restart service endpoint. *)
Theorem restart_calls issued :
  ha_restart token upstream false issued = (Returned restart_cancelled, issued)
  /\ exists req,
       snd (ha_restart token upstream true issued) = (issued ++ [req])%list
       /\ method req = "POST"
       /\ url req = "http://supervisor/core/api/services/homeassistant/restart"
       /\ body_json req = None.
Proof.
  split; [done|].
  exists (request_to HA_API_BASE token "/services/homeassistant/restart" post_options).
  split; [|done].
  unfold ha_restart. simpl. by rewrite call_then_return.
Qed.

Lemma own_property_keys (o : list (string * string)) key :
  is_Some (own_property o key) <-> key ∈ Object_keys o.
Proof.
  induction o as [|[k v] o IH]; simpl.
  - split; [by intros [? ?] | by intros ?%elem_of_nil].
  - rewrite elem_of_cons, <- IH.
    destruct (String.eqb_spec k key) as [->|Hne]; [by split; eauto|].
    split; [by right | by intros [?|?]].
Qed.

Lemma own_property_elem (o : list (string * string)) key v :
  own_property o key = Some v -> (key, v) ∈ o.
Proof.
  induction o as [|[k w] o IH]; simpl; [done|].
  destruct (String.eqb_spec k key) as [->|Hne].
  - intros [= ->]. left.
  - intros ?. right. auto.
Qed.

Lemma RELOAD_MAP_truthy key endpoint :
  own_property RELOAD_MAP key = Some endpoint -> truthy_str endpoint = true.
Proof.
  intros Hown%own_property_elem.
  assert (Forall (fun p => truthy_str p.2 = true) RELOAD_MAP) as Hall
    by (repeat constructor).
  rewrite Forall_forall in Hall. apply (Hall _ Hown).
Qed.

(** A declared key: one POST to the mapped endpoint, and the success
    text when the adapter call returns. *)
Lemma reload_declared domain issued :
  domain ∈ Object_keys RELOAD_MAP ->
  exists endpoint,
    own_property RELOAD_MAP domain = Some endpoint
    /\ ha_reload_config token upstream domain issued
       = (match settle Core ("/services/" ++ endpoint) post_options
                  (upstream issued (request_to HA_API_BASE token
                                      ("/services/" ++ endpoint) post_options)) with
          | Returned _ => Returned (reloaded domain)
          | Thrown e => Thrown e
          end,
          (issued ++ [request_to HA_API_BASE token ("/services/" ++ endpoint)
                        post_options])%list).
Proof.
  intros [endpoint Hown]%own_property_keys. exists endpoint. split; [done|].
  unfold ha_reload_config, get_property. rewrite Hown. simpl.
  rewrite (RELOAD_MAP_truthy _ _ Hown). simpl. apply call_then_return.
Qed.

(** X7. A string that is neither declared nor inherited: the handled
    response that lists the valid keys, and no request. *)
Lemma reload_unknown domain issued :
  domain ∉ Object_keys RELOAD_MAP -> inherited domain = false ->
  ha_reload_config token upstream domain issued
  = (Returned (unknown_domain domain), issued).
Proof.
  intros Hkey Hinh. unfold ha_reload_config, get_property.
  destruct (own_property RELOAD_MAP domain) as [e|] eqn:Hown.
  { exfalso. apply Hkey, own_property_keys. eauto. }
  unfold inherited in Hinh. apply orb_false_iff in Hinh as [-> Hm].
  destruct (String.eqb_spec domain "constructor") as [->|_]; [done|].
  by rewrite Hm.
Qed.

(** C3 at the failing input. ["constructor"] is not a key of the reload
    table, yet the property read finds [Object.prototype.constructor],
    which is truthy: the handler issues a POST and does not return the
    handled response that lists the valid keys. *)
Theorem reload_inherited_name issued :
  ("constructor" ∉ Object_keys RELOAD_MAP)
  /\ snd (ha_reload_config token upstream "constructor" issued)
     = (issued ++ [request_to HA_API_BASE token
                     "/services/function Object() { [native code] }" post_options])%list
  /\ fst (ha_reload_config token upstream "constructor" issued)
     <> Returned (unknown_domain "constructor").
Proof.
  split; [by intros ?%own_property_keys%is_Some_None|].
  unfold ha_reload_config. simpl. rewrite call_then_return. simpl.
  split; [done|]. destruct (settle _ _ _ _); [|done].
  intros [= H].
Qed.

(** C7, as the code has it. For every raw log text the supervisor
    returns and every integral [lines >= 1], [get_logs] splits the text
    on newlines and returns exactly the last [lines] entries of the
    line list (all entries when there are fewer), joined by newlines
    under its heading; the heading prints [lines] as the runtime prints
    a Number. *)
Theorem get_logs_last_lines (lines : Z) (logs : string) issued r :
  1 <= lines ->
  upstream issued (request_to SUPERVISOR_API_BASE token "/core/logs" raw_options)
  = Returned r ->
  Spec.success_status (status r) -> text r = Returned logs ->
  ha_get_logs token upstream lines issued
  = (Returned ("Home Assistant logs (last " ++ number_to_string lines ++ " lines):"
                 ++ LF ++ LF
                 ++ join LF (Spec.last_entries (Z.to_nat lines)
                               (split "010"%char logs))),
     (issued ++ [request_to SUPERVISOR_API_BASE token "/core/logs" raw_options])%list).
Proof.
  intros Hn Hup Hst%ok_success Htext.
  unfold ha_get_logs, bind. rewrite supervisorApiRequest_run, Hup. simpl.
  rewrite Hst. simpl. unfold as_text. rewrite Htext.
  unfold ret, logs_text, last_lines. by rewrite slice_neg_last.
Qed.

(** On the integer computation: for every invocation time [now] and
    every integral [hours] for which [now - hours * 3,600,000] is a time
    value a [Date] can hold, the start boundary is exactly that time
    value and the one request issued is the history query for its ISO
    rendering. *)
Lemma get_history_start_integral (now hours : Z) (entity_id : string) issued :
  Z.abs (now - hours * 3600000) <= JsDate.maxTime ->
  history_start now hours = Some (now - hours * 3600000)
  /\ snd (ha_get_history_result token upstream now entity_id hours issued)
     = (issued ++ [request_to HA_API_BASE token
                     (history_path (JsDate.iso_string (now - hours * 3600000)) entity_id)
                     no_options])%list.
Proof.
  intros Hrange.
  assert (history_start now hours = Some (now - hours * 3600000)) as Hstart.
  { unfold history_start, JsDate.new_Date.
    replace (now - hours * 60 * 60 * 1000) with (now - hours * 3600000) by lia.
    destruct (Z.leb_spec (Z.abs (now - hours * 3600000)) JsDate.maxTime);
      [done | lia]. }
  split; [done|].
  unfold ha_get_history_result, bind, await. rewrite Hstart. simpl.
  by rewrite haApiRequest_run.
Qed.

(** C8, as the code has it. Let [now] be the time value of the
    invocation and [hours] any finite Number, fractional or not, such
    that [now - hours * 3,600,000] lies within the range of a [Date]
    less 8 ms. Then the start boundary is a valid time value [start]
    less than 8 ms from [now - hours * 3,600,000] (what the roundings
    of the three products and of the difference, and the dropped
    fraction of a millisecond, can add up to), so it is [hours] hours
    before the invocation to well within a second; it is exactly
    [now - hours * 3,600,000] when [hours] is integral; and the one
    request issued is the history query for the ISO rendering of
    [start]. *)
Theorem get_history_start (now : Z) (hours : Q) (entity_id : string) issued :
  Z.abs now <= JsDate.maxTime ->
  (Qabs (inject_Z now - hours * 3600000) <= inject_Z JsDate.maxTime - 8)%Q ->
  exists start : Z,
    history_start_double now (Double.Finite hours) = Some start
    /\ (Qabs (inject_Z start - (inject_Z now - hours * 3600000)) < 8)%Q
    /\ (forall h : Z, (hours == inject_Z h)%Q -> start = now - h * 3600000)
    /\ snd (ha_get_history_result_double token upstream now entity_id
              (Double.Finite hours) issued)
       = (issued ++ [request_to HA_API_BASE token
                       (history_path (JsDate.iso_string start) entity_id)
                       no_options])%list.
Proof.
  intros Hnow Hex. unfold JsDate.maxTime in Hnow.
  change (inject_Z JsDate.maxTime) with 8640000000000000%Q in Hex.
  apply Qabs_Qle_condition in Hex.
  pose proof (proj1 (inject_Z_abs_le now 8640000000000000) Hnow) as Hnow'.
  change (inject_Z 8640000000000000) with 8640000000000000%Q in Hnow'.
  destruct (start_value (inject_Z now) hours) as (d & Hd & Herr & Hrange);
    [done | split; lra |].
  pose proof (truncate_close d) as Htr.
  assert (history_start_double now (Double.Finite hours) = Some (Double.truncate d))
    as Hstart.
  { unfold history_start_double. rewrite Hd. unfold JsDate.new_Date_number.
    assert (Qle_bool (Qabs d) (inject_Z JsDate.maxTime) = true) as ->; [|done].
    apply Qle_bool_iff, Qabs_Qle_condition.
    change (inject_Z JsDate.maxTime) with 8640000000000000%Q. split; lra. }
  exists (Double.truncate d). split; [done|]. split; [|split].
  - apply Qabs_Qlt_condition. split; lra.
  - intros h Hh.
    assert (Z.abs (now - h * 3600000) <= 8640000000000000) as Hz.
    { apply inject_Z_abs_le.
      change (inject_Z 8640000000000000) with 8640000000000000%Q.
      unfold Z.sub. rewrite inject_Z_plus, inject_Z_opp, inject_Z_mult, <- Hh.
      change (inject_Z 3600000) with 3600000%Q. split; lra. }
    destruct (start_value_integral now h hours Hh Hnow Hz) as (d' & Hd' & Hexact).
    rewrite Hd in Hd'. injection Hd' as <-.
    by apply truncate_integer.
  - unfold ha_get_history_result_double, bind, await. rewrite Hstart. simpl.
    by rewrite haApiRequest_run.
Qed.

(** For an integral [hours] the handler on doubles runs as the handler
    on integers does, whatever the range. *)
Lemma get_history_result_integral (now hours : Z) (entity_id : string) issued :
  Z.abs now <= JsDate.maxTime ->
  ha_get_history_result_double token upstream now entity_id
    (Double.Finite (inject_Z hours)) issued
  = ha_get_history_result token upstream now entity_id hours issued.
Proof.
  intros Hnow. unfold ha_get_history_result_double, ha_get_history_result.
  by rewrite history_start_double_integral.
Qed.


(** C9, as the code has it. For every template and every text [rendered]
    that the upstream returns for it (a 2xx response not declared as
    JSON), [render_template] returns the heading "Template result:" and
    a blank line followed by exactly [rendered]; an empty rendering is
    not presented differently. *)
Theorem render_template_verbatim (template rendered : string) issued r :
  upstream issued (request_to HA_API_BASE token "/template" (template_options template))
  = Returned r ->
  Spec.success_status (status r) -> ~ Spec.declares_json r ->
  text r = Returned rendered ->
  ha_render_template token upstream template issued
  = (Returned ("Template result:" ++ LF ++ LF ++ rendered),
     (issued ++ [request_to HA_API_BASE token "/template"
                   (template_options template)])%list).
Proof.
  intros Hup Hst%ok_success Hct Htext.
  unfold ha_render_template, bind. rewrite haApiRequest_run, Hup. simpl.
  rewrite Hst. simpl. unfold Spec.declares_json in Hct.
  destruct (includes _ _); [done|]. unfold as_text. by rewrite Htext.
Qed.

End HandlerProperties.

(* ------------------------------------------------------------------ *)
(** *** ha_reload_config on concrete domains *)

Example reload_core :
  ha_reload_config None (Fixture.always (Fixture.plain 200 "[]")) "core" []
  = (Returned "Reloaded 'core' configuration successfully.",
     [request_to HA_API_BASE None "/services/homeassistant/reload_core_config"
        post_options]).
Proof. by vm_compute. Qed.

Example reload_light :
  ha_reload_config None (Fixture.always (Fixture.plain 200 "[]")) "light" []
  = (Returned ("Unknown domain 'light'. Supported: automation, script, scene, group, "
                 ++ "input_boolean, input_number, input_select, input_datetime, "
                 ++ "input_text, input_button, timer, counter, schedule, zone, "
                 ++ "template, person, core"),
     []).
Proof. by vm_compute. Qed.

(** The upstream has no such service: the call made for ["constructor"]
    fails there and the handler throws. *)
Example reload_constructor_throws :
  ha_reload_config None (Fixture.always (Fixture.plain 404 "404: Not Found"))
    "constructor" []
  = (Thrown (Error ("HA API POST /services/function Object() { [native code] } "
                      ++ "failed (404): 404: Not Found")),
     [request_to HA_API_BASE None "/services/function Object() { [native code] }"
        post_options]).
Proof. by vm_compute. Qed.

(* ------------------------------------------------------------------ *)
(** *** ha_get_logs on concrete arguments *)

(** A negative [lines] makes [slice] drop entries from the front: with
    -1 the handler returns the entries after the first. *)
Lemma get_logs_negative_lines :
  last_lines Fixture.log_text (-1) = ["b"; "c"]
  /\ Spec.last_entries (Z.to_nat (-1)) (split "010"%char Fixture.log_text) = [].
Proof. by vm_compute. Qed.

(** Beyond 2^53 the heading shows [lines] as Number::toString prints
    it, not digit by digit. *)
Example get_logs_heading_large :
  fst (ha_get_logs None (Fixture.always (Fixture.plain 200 Fixture.log_text))
         (10 ^ 21) [])
  = Returned ("Home Assistant logs (last 1e+21 lines):" ++ LF ++ LF ++ Fixture.log_text).
Proof. by vm_compute. Qed.

(** [slice(-0)] is [slice(0)]: with [lines = 0] every line is returned. *)
Lemma get_logs_zero_lines (logs : string) :
  last_lines logs 0 = split "010"%char logs.
Proof. unfold last_lines. apply slice_neg_zero. Qed.

Lemma get_logs_last_lines_witness :
  ha_get_logs None (Fixture.always (Fixture.plain 200 Fixture.log_text)) 2 []
  = (Returned ("Home Assistant logs (last 2 lines):" ++ LF ++ LF ++ "b" ++ LF ++ "c"),
     [request_to SUPERVISOR_API_BASE None "/core/logs" raw_options]).
Proof.
  apply (get_logs_last_lines None (Fixture.always (Fixture.plain 200 Fixture.log_text))
           2 Fixture.log_text [] (Fixture.plain 200 Fixture.log_text));
    [lia | reflexivity | unfold Spec.success_status; simpl; lia | reflexivity].
Defined.

(* ------------------------------------------------------------------ *)
(** *** ha_get_history on concrete arguments *)

(** Ten thousand million hours before now is no time value: the start
    is an invalid date, [toISOString] throws and no query is issued.
    The computation on doubles and the integer computation agree on
    it. *)
Lemma get_history_invalid_start :
  history_start_double 1700000000000 (Double.Finite 10000000000) = None
  /\ ha_get_history_result_double None
       (Fixture.always (Fixture.as_json 200 "[]" (JArr [])))
       1700000000000 "sensor.temperature" (Double.Finite 10000000000) []
     = (Thrown (RangeError "Invalid time value"), [])
  /\ history_start 1700000000000 10000000000 = None
  /\ ha_get_history_result None (Fixture.always (Fixture.as_json 200 "[]" (JArr [])))
       1700000000000 "sensor.temperature" 10000000000 []
     = (Thrown (RangeError "Invalid time value"), []).
Proof. repeat split; by vm_compute. Qed.

(** An infinite [hours] and NaN give an invalid date as well. *)
Example get_history_not_finite :
  history_start_double 1700000000000 Double.PosInf = None
  /\ history_start_double 1700000000000 Double.NegInf = None
  /\ history_start_double 1700000000000 Double.NaN = None.
Proof. repeat split; by vm_compute. Qed.

(** A fraction of a millisecond is dropped: with [hours = 1e-7] (0.36
    ms) the start is the millisecond before [now]; with a tenth of an
    hour (the double nearest to 0.1) the products round to 360000 ms
    exactly. *)
Example get_history_fractional_hours :
  history_start_double 1700000000000
    (Double.Finite (944473296573929 # 9444732965739290427392))
  = Some 1699999999999
  /\ history_start_double 1700000000000
       (Double.Finite (3602879701896397 # 36028797018963968))
     = Some 1699999640000
  /\ history_start_double 1700000000000
       (Double.Finite (8687499202136843 # 70368744177664))
     = Some 1699555555559.
Proof. repeat split; by vm_compute. Qed.

Lemma get_history_start_witness :
  exists start : Z,
    history_start_double 1700000000000 (Double.Finite (1 # 2)) = Some start
    /\ (Qabs (inject_Z start - (inject_Z 1700000000000 - (1 # 2) * 3600000)) < 8)%Q
    /\ (forall h : Z, ((1 # 2) == inject_Z h)%Q -> start = 1700000000000 - h * 3600000)
    /\ snd (ha_get_history_result_double None
              (Fixture.always (Fixture.as_json 200 "[]" (JArr [])))
              1700000000000 "sensor.temperature" (Double.Finite (1 # 2)) [])
       = [request_to HA_API_BASE None
            (history_path (JsDate.iso_string start) "sensor.temperature") no_options].
Proof.
  apply (get_history_start None (Fixture.always (Fixture.as_json 200 "[]" (JArr [])))
           1700000000000 (1 # 2) "sensor.temperature" []);
    by vm_compute.
Defined.

(** Half an hour before 2023-11-14T22:13:20Z. *)
Example get_history_half_hour :
  history_start_double 1700000000000 (Double.Finite (1 # 2)) = Some 1699998200000
  /\ snd (ha_get_history_result_double None
            (Fixture.always (Fixture.as_json 200 "[]" (JArr [])))
            1700000000000 "sensor.temperature" (Double.Finite (1 # 2)) [])
     = [request_to HA_API_BASE None
          ("/history/period/2023-11-14T21:43:20.000Z"
             ++ "?filter_entity_id=sensor.temperature&no_attributes&minimal_response")
          no_options].
Proof. split; by vm_compute. Qed.

Lemma get_history_start_integral_witness :
  history_start 1700000000000 24 = Some 1699913600000
  /\ snd (ha_get_history_result None
            (Fixture.always (Fixture.as_json 200 "[]" (JArr [])))
            1700000000000 "sensor.temperature" 24 [])
     = [request_to HA_API_BASE None
          ("/history/period/2023-11-13T22:13:20.000Z"
             ++ "?filter_entity_id=sensor.temperature&no_attributes&minimal_response")
          no_options].
Proof.
  apply (get_history_start_integral None
           (Fixture.always (Fixture.as_json 200 "[]" (JArr [])))
           1700000000000 24 "sensor.temperature" []).
  by vm_compute.
Defined.

(* ------------------------------------------------------------------ *)
(** *** ha_render_template on concrete renderings *)

(** The returned text is not the rendering itself: it starts with the
    heading. *)
Lemma render_template_adds_heading :
  fst (ha_render_template None (Fixture.always (Fixture.plain 200 "42"))
         "{{ 6 * 7 }}" [])
  = Returned ("Template result:" ++ LF ++ LF ++ "42")
  /\ fst (ha_render_template None (Fixture.always (Fixture.plain 200 "42"))
            "{{ 6 * 7 }}" [])
     <> Returned "42".
Proof. split; [by vm_compute | by vm_compute]. Qed.

(** An empty rendering is returned as it is, after the heading. *)
Example render_template_empty :
  fst (ha_render_template None (Fixture.always (Fixture.plain 200 "")) "" [])
  = Returned ("Template result:" ++ LF ++ LF).
Proof. by vm_compute. Qed.

(** A rendering declared as JSON is decoded by the adapter and printed
    by the template literal. *)
Example render_template_json :
  fst (ha_render_template None
         (Fixture.always (Fixture.as_json 200 "[1, 2]" (JArr [JNum 1; JNum 2])))
         "{{ [1, 2] }}" [])
  = Returned ("Template result:" ++ LF ++ LF ++ "1,2").
Proof. by vm_compute. Qed.

Lemma render_template_verbatim_witness :
  ha_render_template None (Fixture.always (Fixture.plain 200 "42")) "{{ 6 * 7 }}" []
  = (Returned ("Template result:" ++ LF ++ LF ++ "42"),
     [request_to HA_API_BASE None "/template" (template_options "{{ 6 * 7 }}")]).
Proof.
  apply (render_template_verbatim None (Fixture.always (Fixture.plain 200 "42"))
           "{{ 6 * 7 }}" "42" [] (Fixture.plain 200 "42"));
    [reflexivity | unfold Spec.success_status; simpl; lia
    | by vm_compute | reflexivity].
Defined.

(* ================================================================== *)
(** ** Further properties of the built-ins *)

Section MoreBuiltIns.

Lemma string_app_cons (c : ascii) (a b : string) : String c a ++ b = String c (a ++ b).
Proof. reflexivity. Qed.

(** Up to 2^53 an integral Number prints digit by digit. *)
Lemma number_to_string_safe (n : Z) :
  Z.abs n <= 2 ^ 53 -> number_to_string n = pretty n.
Proof.
  intros Hn. unfold number_to_string.
  destruct (Z.leb_spec (Z.abs n) (2 ^ 53)); [done | lia].
Qed.

(** Beyond, it prints the shortest digits that identify the double. *)
Example number_to_string_large :
  number_to_string (2 ^ 53) = "9007199254740992"
  /\ number_to_string (2 ^ 64) = "18446744073709552000"
  /\ number_to_string (10 ^ 21) = "1e+21"
  /\ number_to_string (- 2 ^ 70) = "-1.1805916207174113e+21"
  /\ number_to_string 123456789012345683968 = "123456789012345680000".
Proof. repeat split; by vm_compute. Qed.

Lemma string_app_nil_r (a : string) : a ++ "" = a.
Proof.
  induction a as [|c a IH]; [done|]. by rewrite string_app_cons, IH.
Qed.

Lemma includes_nil (p : string) : includes "" p = startsWith "" p.
Proof. unfold startsWith. simpl. by rewrite orb_false_r. Qed.

Lemma includes_cons (c : ascii) (s p : string) :
  includes (String c s) p = startsWith (String c s) p || includes s p.
Proof. reflexivity. Qed.

(** [includes] finds a string exactly when it occurs somewhere. *)
Lemma includes_app (s p : string) :
  includes s p = true <-> exists a b, s = a ++ p ++ b.
Proof.
  induction s as [|c s IH].
  - rewrite includes_nil, startsWith_app. split.
    + intros [r Hr]. by exists "", r.
    + intros ([|x a] & b & Hab); [by exists b | discriminate].
  - rewrite includes_cons, orb_true_iff, IH, startsWith_app.
    split.
    + intros [[r Hr]|(a & b & ->)]; [by exists "", r | by exists (String c a), b].
    + intros ([|x a] & b & Hab); [left; by exists b|].
      right. rewrite string_app_cons in Hab. injection Hab as -> ->. by exists a, b.
Qed.

Lemma split_nonempty (sep : ascii) (s : string) : split sep s <> [].
Proof.
  induction s as [|c s IH]; simpl; [done|].
  destruct (Ascii.eqb c sep); [done|]. by destruct (split sep s).
Qed.

Lemma concat_cons_char (sep : string) (c : ascii) (piece : string) (pieces : list string) :
  String.concat sep (String c piece :: pieces)
  = String c (String.concat sep (piece :: pieces)).
Proof. by destruct pieces. Qed.

(** Joining the pieces of a split with the separator gives the text back. *)
Lemma join_split (sep : ascii) (s : string) :
  join (String sep "") (split sep s) = s.
Proof.
  unfold join. induction s as [|c s IH]; simpl; [done|].
  destruct (Ascii.eqb_spec c sep) as [->|Hne].
  - destruct (split sep s) as [|piece pieces] eqn:Hs; [by apply split_nonempty in Hs|].
    simpl in *. by rewrite IH.
  - destruct (split sep s) as [|piece pieces] eqn:Hs; [by apply split_nonempty in Hs|].
    by rewrite concat_cons_char, IH.
Qed.

(** A text that ends with the separator splits into the pieces of the
    text before it and a final empty piece. *)
Lemma split_snoc (sep : ascii) (s : string) :
  split sep (s ++ String sep "") = (split sep s ++ [""])%list.
Proof.
  induction s as [|c s IH].
  - simpl. by rewrite Ascii.eqb_refl.
  - rewrite string_app_cons. simpl. rewrite IH.
    destruct (Ascii.eqb c sep); [done|].
    destruct (split sep s) as [|piece pieces] eqn:Hs; [by apply split_nonempty in Hs|].
    done.
Qed.

(** The first piece of a split is the prefix before the first separator. *)
Lemma split_first (sep : ascii) (s : string) :
  exists rest, split sep s = Spec.prefix_before sep s :: rest.
Proof.
  induction s as [|c s [rest IH]]; simpl; [by exists []|].
  destruct (Ascii.eqb c sep); [by eexists|].
  rewrite IH. by eexists.
Qed.

Context {A : Type}.
Implicit Types l : list A.

Lemma slice_sublist l (start : Z) (end_ : option Z) : slice l start end_ `sublist_of` l.
Proof.
  unfold slice. etrans; [apply sublist_take | apply sublist_drop].
Qed.

Lemma filter_sublist (f : A -> bool) l : List.filter f l `sublist_of` l.
Proof.
  induction l as [|x l IH]; simpl; [done|].
  destruct (f x); [by apply sublist_skip | by apply sublist_cons].
Qed.

End MoreBuiltIns.

(* ================================================================== *)
(** ** Which entities the state tools select *)

Section Selection.
Implicit Types (states : list EntityState) (d id : string) (domain : option string).

Lemma startsWith_char_inv (c x : ascii) (s : string) :
  startsWith (String c s) (String x "") = true -> c = x.
Proof. intros [r Hr]%startsWith_app. by injection Hr. Qed.

(** An identifier that contains the separator is its prefix before the
    first separator, the separator, and a rest. *)
Lemma prefix_before_split id :
  includes id "." = true ->
  exists rest, id = Spec.prefix_before "."%char id ++ "." ++ rest.
Proof.
  induction id as [|c id IH]; [done|].
  rewrite includes_cons, orb_true_iff. simpl.
  destruct (Ascii.eqb_spec c ".") as [->|Hne].
  - intros _. by exists id.
  - intros [Hc%startsWith_char_inv|Hin]; [done|].
    destruct (IH Hin) as [rest Hrest]. exists rest.
    by rewrite string_app_cons, <- Hrest.
Qed.

(** For a domain without separator, the prefix test of the handlers is
    the test on the domain of the identifier. *)
Lemma startsWith_domain d id :
  includes d "." = false ->
  startsWith id (d ++ ".") = true
  <-> Spec.domain_of id = d /\ includes id "." = true.
Proof.
  intros Hd. rewrite startsWith_app. split.
  - intros [r ->]. rewrite string_app_assoc. split.
    + by apply prefix_before_app.
    + apply includes_app. by exists d, r.
  - intros [<- [rest Hrest]%prefix_before_split]. exists rest.
    by rewrite string_app_assoc.
Qed.

(** X10. For a non-empty domain without ['.'], [get_entities] selects
    exactly the states whose identifier contains a ['.'] and has the
    domain as its prefix before the first ['.']: nothing else is
    selected and no such state is left out. *)
Theorem get_entities_selects_domain states d (s : EntityState) :
  d <> "" -> includes d "." = false ->
  s ∈ GetEntities.filtered states (Some d)
  <-> s ∈ states /\ Spec.domain_of (entity_id s) = d
      /\ includes (entity_id s) "." = true.
Proof.
  intros Hd Hdot. rewrite filtered_some by done.
  rewrite list_elem_of_In, filter_In, <- list_elem_of_In.
  by rewrite startsWith_domain.
Qed.

(** X11. When the limit is at least the number of selected entities,
    every selected entity is shown and there is no "(showing first n)"
    annotation. *)
Theorem get_entities_unlimited states domain (limit : Z) :
  Z.of_nat (length (GetEntities.filtered states domain)) <= limit ->
  GetEntities.limited states domain limit = GetEntities.filtered states domain
  /\ GetEntities.showing states domain limit = ""
  /\ length (GetEntities.lines states domain limit)
     = length (GetEntities.filtered states domain).
Proof.
  intros Hle.
  assert (GetEntities.limited states domain limit = GetEntities.filtered states domain)
    as Heq by (rewrite limited_nonneg by lia; apply take_ge; lia).
  split; [done|]. unfold GetEntities.showing, GetEntities.lines.
  rewrite length_map, Heq. split; [|done].
  by rewrite Nat.ltb_irrefl.
Qed.

(** X12. Whatever the domain and the limit (negative ones included), the
    entities shown are a sub-list of the upstream states: their order
    is kept and none is repeated or made up. *)
Theorem get_entities_keeps_order states domain (limit : Z) :
  GetEntities.limited states domain limit `sublist_of` states.
Proof.
  unfold GetEntities.limited. etrans; [apply slice_sublist|].
  unfold GetEntities.filtered. destruct domain as [d|]; [|done].
  destruct (truthy_str d); [apply filter_sublist | done].
Qed.

(** X13. [get_automations] selects the states that
    [get_entities(domain="automation")] selects, all of them (it has no
    limit): one line per such state, or the text "No automations
    found." when there is none. *)
Theorem get_automations_lists_all states :
  let automations := GetAutomations.automations states in
  automations = GetEntities.filtered states (Some "automation")
  /\ (forall s, s ∈ automations
        <-> s ∈ states /\ Spec.domain_of (entity_id s) = "automation"
            /\ includes (entity_id s) "." = true)
  /\ (automations = [] -> ha_get_automations states = "No automations found.")
  /\ (automations <> [] ->
      ha_get_automations states
      = "Found " ++ pretty (length automations) ++ " automations:" ++ LF ++ LF
          ++ join LF (map GetAutomations.line_of automations)).
Proof.
  intros automations. subst automations.
  assert (GetAutomations.automations states
          = GetEntities.filtered states (Some "automation")) as Heq by done.
  split; [done|]. split.
  - intros s. rewrite Heq, filtered_some by done.
    rewrite list_elem_of_In, filter_In, <- list_elem_of_In.
    by rewrite startsWith_domain.
  - unfold ha_get_automations. split.
    + by intros ->.
    + intros Hne. by destruct (GetAutomations.automations states).
Qed.

End Selection.

Lemma get_entities_selects_domain_witness :
  Fixture.entity "light.hall" "off" ∈ GetEntities.filtered Fixture.states (Some "light")
  <-> Fixture.entity "light.hall" "off" ∈ Fixture.states
      /\ Spec.domain_of "light.hall" = "light"
      /\ includes "light.hall" "." = true.
Proof.
  apply (get_entities_selects_domain Fixture.states "light"
           (Fixture.entity "light.hall" "off")); [done | reflexivity].
Defined.

Lemma get_entities_unlimited_witness :
  GetEntities.limited Fixture.states (Some "light") 200
  = GetEntities.filtered Fixture.states (Some "light")
  /\ GetEntities.showing Fixture.states (Some "light") 200 = ""
  /\ length (GetEntities.lines Fixture.states (Some "light") 200)
     = length (GetEntities.filtered Fixture.states (Some "light")).
Proof.
  apply (get_entities_unlimited Fixture.states (Some "light") 200).
  vm_compute. discriminate.
Defined.

Example get_automations_fixture :
  ha_get_automations Fixture.states
  = "Found 1 automations:" ++ LF ++ LF
      ++ "automation.morning — on — " ++ DQ ++ "automation.morning" ++ DQ
      ++ " (last triggered: never)".
Proof. by vm_compute. Qed.

(* ================================================================== *)
(** ** ha_get_integrations: the list of base domains *)

Section Integrations.
Import GetIntegrations.

Lemma base_domain_prefix (component : string) :
  base_domain component = Spec.domain_of component.
Proof.
  unfold base_domain, Spec.domain_of.
  by destruct (split_first "." component) as [rest ->].
Qed.

Lemma Set_add_elem (s : list string) (x y : string) :
  y ∈ Set_add s x <-> y ∈ s \/ y = x.
Proof.
  unfold Set_add. case_decide as Hx.
  - split; [by left | by intros [?| ->]].
  - rewrite elem_of_app, list_elem_of_singleton. done.
Qed.

Lemma Set_add_NoDup (s : list string) (x : string) :
  NoDup s -> NoDup (Set_add s x).
Proof.
  intros Hs. unfold Set_add. case_decide as Hx; [done|].
  apply NoDup_app. split; [done|]. split; [|apply NoDup_singleton].
  intros y Hy ->%list_elem_of_singleton. done.
Qed.

Lemma baseDomains_fold (l : list string) (acc : list string) :
  NoDup acc ->
  NoDup (foldl (fun s component => Set_add s (base_domain component)) acc l)
  /\ forall x,
       x ∈ foldl (fun s component => Set_add s (base_domain component)) acc l
       <-> x ∈ acc \/ exists c, c ∈ l /\ base_domain c = x.
Proof.
  revert acc. induction l as [|c l IH]; intros acc Hacc; simpl.
  - split; [done|]. intros x. split; [by left|].
    by intros [?|(c & ?%elem_of_nil & _)].
  - destruct (IH (Set_add acc (base_domain c))) as [Hnd Hin];
      [by apply Set_add_NoDup|].
    split; [done|]. intros x. rewrite Hin, Set_add_elem. split.
    + intros [[?| ->]|(c' & Hc' & <-)]; [by left | right; exists c | right; exists c'];
        split; try done; [left | by right].
    + intros [?|(c' & [->|Hc']%elem_of_cons & <-)]; [by left; left | by left; right|].
      right. by exists c'.
Qed.

(** X14. Whatever order the runtime's sort gives them (a sort permutes
    its input), the integrations [get_integrations] lists are free of
    duplicates and are exactly the prefixes before the first ['.'] of
    the installed components, each listed once; the count it reports
    is the length of that list. *)
Theorem get_integrations_base_domains (Array_sort : list string -> list string)
    (config : Config) :
  (forall l, Array_sort l ≡ₚ l) ->
  NoDup (sorted Array_sort config)
  /\ (forall x, x ∈ sorted Array_sort config
        <-> exists c, c ∈ components config /\ Spec.domain_of c = x)
  /\ ha_get_integrations Array_sort config
     = "HA Version: " ++ version config ++ LF
         ++ pretty (length (sorted Array_sort config))
         ++ " integrations installed:" ++ LF ++ LF
         ++ join ", " (sorted Array_sort config).
Proof.
  intros Hsort.
  destruct (baseDomains_fold (components config) []) as [Hnd Hin]; [constructor|].
  unfold sorted. split; [by rewrite Hsort|]. split; [|done].
  intros x. rewrite Hsort. unfold baseDomains. rewrite Hin.
  split.
  - intros [?%elem_of_nil|(c & Hc & <-)]; [done|]. exists c.
    by rewrite base_domain_prefix.
  - intros (c & Hc & <-). right. exists c. by rewrite base_domain_prefix.
Qed.

End Integrations.

Example get_integrations_sample :
  ha_get_integrations Sample.byte_sort Sample.config
  = "HA Version: 2024.1.0" ++ LF ++ "4 integrations installed:" ++ LF ++ LF
      ++ "light, mqtt, sensor, zone".
Proof. by vm_compute. Qed.

Lemma get_integrations_base_domains_witness :
  NoDup (GetIntegrations.sorted Sample.byte_sort Sample.config)
  /\ "sensor" ∈ GetIntegrations.sorted Sample.byte_sort Sample.config.
Proof.
  destruct (get_integrations_base_domains Sample.byte_sort Sample.config)
    as (Hnd & Hin & _); [apply merge_sort_Permutation|].
  split; [exact Hnd|]. apply Hin. exists "sensor.mqtt". split; [left | reflexivity].
Defined.

(* ================================================================== *)
(** ** The adapter: the request it builds and what it lets through *)

Section AdapterMore.
Variable token : option string.
Variable upstream : list FetchRequest -> FetchRequest -> Outcome Response.
Implicit Types (endpoint : string) (options : RequestOptions)
  (issued : list FetchRequest) (r : Response).

(** X1. Every adapter call hands exactly one request to [fetch], whatever
    comes back (there is no retry): the URL is the base followed by the
    endpoint, the method defaults to GET, the credential is sent as a
    bearer token ("Bearer undefined" when the token is unset), the
    content type is JSON, the abort timer defaults to 30000 ms, and a
    body is sent exactly when one is given and truthy. *)
Theorem adapter_one_request api endpoint options issued :
  exists req,
    snd (adapter_call token upstream api endpoint options issued) = (issued ++ [req])%list
    /\ url req = base_of api ++ endpoint
    /\ method req = default "GET" (opt_method options)
    /\ authorization req = "Bearer " ++ default "undefined" token
    /\ content_type_header req = "application/json"
    /\ abort_after req = default 30000 (opt_timeout options)
    /\ (forall v, body_json req = Some v
          <-> opt_body options = Some v /\ truthy v = true).
Proof.
  exists (request_to (base_of api) token endpoint options).
  rewrite adapter_call_run. simpl.
  split; [done|]. split; [done|]. split; [done|].
  split; [by destruct token|]. split; [done|]. split; [done|].
  intros v. unfold sent_body.
  destruct (opt_body options) as [w|]; [|by split; [|intros []]].
  destruct (truthy w) eqn:Hw; split.
  - by intros [= <-].
  - by intros [[= <-] _].
  - done.
  - intros [[= <-] Hv]. congruence.
Qed.

(** X2. When [fetch] itself rejects (a network failure, or the abort
    raised by the timer), the adapter call throws that same value
    after its one request. *)
Theorem adapter_fetch_rejected api endpoint options issued (e : Exn) :
  upstream issued (request_to (base_of api) token endpoint options) = Thrown e ->
  adapter_call token upstream api endpoint options issued
  = (Thrown e, (issued ++ [request_to (base_of api) token endpoint options])%list).
Proof. intros Hup. by rewrite adapter_call_run, Hup. Qed.

(** X3. On a 2xx response without forced raw decoding, a content type
    that contains "application/json" anywhere (for instance followed by
    a charset) makes the adapter return the decoded JSON, and a missing
    content-type header makes it return the text. *)
Theorem adapter_json_content_type api endpoint options issued r :
  upstream issued (request_to (base_of api) token endpoint options) = Returned r ->
  Spec.success_status (status r) -> raw_forced api options = false ->
  (forall pre post, content_type r = Some (pre ++ "application/json" ++ post) ->
     fst (adapter_call token upstream api endpoint options issued) = json r)
  /\ (content_type r = None ->
      fst (adapter_call token upstream api endpoint options issued) = as_text r).
Proof.
  intros Hup Hst%ok_success Hraw. rewrite adapter_call_run, Hup. simpl.
  rewrite Hst, Hraw. simpl. split.
  - intros pre post Hct.
    assert (includes (contentType_of r) "application/json" = true) as ->; [|done].
    apply includes_app. exists pre, post. unfold contentType_of. by rewrite Hct.
  - intros Hct. unfold contentType_of. by rewrite Hct.
Qed.

End AdapterMore.

Lemma adapter_fetch_rejected_witness :
  supervisorApiRequest (Some "t") Sample.aborting "/core/logs" raw_options []
  = (Thrown (Rejected "This operation was aborted"),
     [request_to SUPERVISOR_API_BASE (Some "t") "/core/logs" raw_options]).
Proof.
  apply (adapter_fetch_rejected (Some "t") Sample.aborting Supervisor "/core/logs"
           raw_options []).
  reflexivity.
Defined.

Lemma adapter_json_content_type_witness :
  fst (haApiRequest None (Fixture.always (Sample.json_utf8 (JArr []))) "/states"
         no_options [])
  = Returned (JArr []).
Proof.
  destruct (adapter_json_content_type None (Fixture.always (Sample.json_utf8 (JArr [])))
              Core "/states" no_options [] (Sample.json_utf8 (JArr [])))
    as [Hjson _]; [reflexivity | unfold Spec.success_status; simpl; lia | reflexivity |].
  apply (Hjson "" "; charset=utf-8"). reflexivity.
Defined.

(* ================================================================== *)
(** ** The handlers: what they pass on and what they return *)

Section HandlersMore.
Variable token : option string.
Variable upstream : list FetchRequest -> FetchRequest -> Outcome Response.
Variable trim : string -> string.
Variable JSON_stringify : JsValue -> string.
Implicit Types (issued : list FetchRequest) (r : Response).

(** A computation that starts with a call that throws ends with that
    throw, having issued what the call issued. *)
Lemma bind_thrown {A B} (m : M A) (k : A -> M B) issued (e : Exn) :
  fst (m issued) = Thrown e -> bind m k issued = (Thrown e, snd (m issued)).
Proof. unfold bind. destruct (m issued) as [[a|e'] tr]; simpl; congruence. Qed.

Lemma bind_returned {A B} (m : M A) (k : A -> M B) issued (a : A) :
  fst (m issued) = Returned a -> bind m k issued = k a (snd (m issued)).
Proof. unfold bind. destruct (m issued) as [[a'|e'] tr]; simpl; congruence. Qed.

(** X4. No handler catches an adapter error: when the adapter call of
    call_service, restart, reload_config (declared key), get_logs,
    render_template, get_areas, get_devices or fire_event throws, the
    handler throws the same value and issues nothing further. *)
Theorem adapter_errors_propagate issued (e : Exn) :
  (forall domain service target data,
     let call := haApiRequest token upstream ("/services/" ++ domain ++ "/" ++ service)
                   (call_service_options (call_service_body target data)) in
     fst (call issued) = Thrown e ->
     ha_call_service token upstream domain service target data issued
     = (Thrown e, snd (call issued)))
  /\ (let call := haApiRequest token upstream "/services/homeassistant/restart"
                    post_options in
      fst (call issued) = Thrown e ->
      ha_restart token upstream true issued = (Thrown e, snd (call issued)))
  /\ (forall domain endpoint,
        own_property RELOAD_MAP domain = Some endpoint ->
        let call := haApiRequest token upstream ("/services/" ++ endpoint) post_options in
        fst (call issued) = Thrown e ->
        ha_reload_config token upstream domain issued = (Thrown e, snd (call issued)))
  /\ (forall lines,
        let call := supervisorApiRequest token upstream "/core/logs" raw_options in
        fst (call issued) = Thrown e ->
        ha_get_logs token upstream lines issued = (Thrown e, snd (call issued)))
  /\ (forall template,
        let call := haApiRequest token upstream "/template" (template_options template) in
        fst (call issued) = Thrown e ->
        ha_render_template token upstream template issued = (Thrown e, snd (call issued)))
  /\ (let call := haApiRequest token upstream "/template"
                    (template_options areas_template) in
      fst (call issued) = Thrown e ->
      ha_get_areas token upstream issued = (Thrown e, snd (call issued)))
  /\ (forall area_id,
        let call := haApiRequest token upstream "/template"
                      (template_options (devices_template area_id)) in
        fst (call issued) = Thrown e ->
        ha_get_devices token upstream trim area_id issued = (Thrown e, snd (call issued)))
  /\ (forall event_type event_data,
        let call := haApiRequest token upstream ("/events/" ++ event_type)
                      (event_options event_data) in
        fst (call issued) = Thrown e ->
        ha_fire_event token upstream JSON_stringify event_type event_data issued
        = (Thrown e, snd (call issued))).
Proof.
  split; [by intros; apply bind_thrown|].
  split; [by intros; apply bind_thrown|].
  split.
  { intros domain endpoint Hown call Hcall.
    unfold ha_reload_config, get_property. rewrite Hown. simpl.
    rewrite (RELOAD_MAP_truthy _ _ Hown). simpl. by apply bind_thrown. }
  repeat split; intros; by apply bind_thrown.
Qed.

(** X9. [fire_event] issues exactly one POST to [/events/<type>] and
    always sends a body: the event data, or an empty object when none
    is given. It returns its confirmation (with the data echoed when
    given) exactly when the adapter call returns. *)
Theorem fire_event_posts event_type event_data issued :
  exists req,
    snd (ha_fire_event token upstream JSON_stringify event_type event_data issued)
    = (issued ++ [req])%list
    /\ method req = "POST"
    /\ url req = HA_API_BASE ++ "/events/" ++ event_type
    /\ body_json req = Some (JObj (default ∅ event_data))
    /\ fst (ha_fire_event token upstream JSON_stringify event_type event_data issued)
       = match fst (haApiRequest token upstream ("/events/" ++ event_type)
                      (event_options event_data) issued) with
         | Returned _ =>
             Returned ("Event '" ++ event_type ++ "' fired successfully."
                         ++ match event_data with
                            | Some d => " Data: " ++ JSON_stringify (JObj d)
                            | None => ""
                            end)
         | Thrown e => Thrown e
         end.
Proof.
  exists (request_to HA_API_BASE token ("/events/" ++ event_type)
            (event_options event_data)).
  unfold ha_fire_event. rewrite call_then_return, haApiRequest_run. simpl.
  repeat split.
Qed.

(** X6. For a declared key, [reload_config] issues exactly one request,
    a POST without body to the endpoint the table maps the key to, and
    returns its success text exactly when the adapter call returns. *)
Theorem reload_declared_posts domain issued :
  domain ∈ Object_keys RELOAD_MAP ->
  exists endpoint req,
    (domain, endpoint) ∈ RELOAD_MAP
    /\ snd (ha_reload_config token upstream domain issued) = (issued ++ [req])%list
    /\ method req = "POST"
    /\ url req = HA_API_BASE ++ "/services/" ++ endpoint
    /\ body_json req = None
    /\ fst (ha_reload_config token upstream domain issued)
       = match fst (haApiRequest token upstream ("/services/" ++ endpoint)
                      post_options issued) with
         | Returned _ => Returned ("Reloaded '" ++ domain ++ "' configuration successfully.")
         | Thrown e => Thrown e
         end.
Proof.
  intros [endpoint Hown]%own_property_keys.
  exists endpoint, (request_to HA_API_BASE token ("/services/" ++ endpoint) post_options).
  split; [by apply own_property_elem|].
  unfold ha_reload_config, get_property.
  rewrite Hown. simpl. rewrite (RELOAD_MAP_truthy _ _ Hown). simpl.
  rewrite call_then_return, haApiRequest_run. simpl. repeat split.
Qed.

(** X5. [restart(confirm=true)] returns the "restart initiated" text
    exactly when its adapter call returns; otherwise it throws what the
    call threw. *)
Theorem restart_confirmed_outcome issued :
  fst (ha_restart token upstream true issued)
  = match fst (haApiRequest token upstream "/services/homeassistant/restart"
                 post_options issued) with
    | Returned _ => Returned restart_initiated
    | Thrown e => Thrown e
    end.
Proof.
  unfold ha_restart. simpl. by rewrite call_then_return, haApiRequest_run.
Qed.

(** X8. [call_service] reports the length of the array the service call
    answered with, and 0 when the answer is not an array. *)
Theorem call_service_changed domain service target data issued (v : JsValue) :
  fst (haApiRequest token upstream ("/services/" ++ domain ++ "/" ++ service)
         (call_service_options (call_service_body target data)) issued)
  = Returned v ->
  (forall items, v = JArr items ->
     fst (ha_call_service token upstream domain service target data issued)
     = Returned ("Service " ++ domain ++ "." ++ service ++ " called successfully. "
                   ++ pretty (length items) ++ " entity state(s) changed."))
  /\ ((forall items, v <> JArr items) ->
      fst (ha_call_service token upstream domain service target data issued)
      = Returned ("Service " ++ domain ++ "." ++ service ++ " called successfully. "
                    ++ "0 entity state(s) changed.")).
Proof.
  intros Hcall. unfold ha_call_service.
  rewrite (bind_returned _ _ _ _ Hcall). simpl. split.
  - by intros items ->.
  - intros Hv. destruct v; try done. by destruct (Hv items).
Qed.

(** X15. [get_areas] and [get_devices] issue exactly the request
    [render_template] issues for their template. *)
Theorem template_tools_request issued :
  snd (ha_get_areas token upstream issued)
  = snd (ha_render_template token upstream areas_template issued)
  /\ forall area_id,
       snd (ha_get_devices token upstream trim area_id issued)
       = snd (ha_render_template token upstream (devices_template area_id) issued).
Proof.
  unfold ha_get_areas, ha_get_devices, ha_render_template, bind.
  split; [|intros area_id]; rewrite haApiRequest_run;
    destruct (settle _ _ _ _) as [[]|]; done.
Qed.

(** X16. [get_areas] returns the rendered text after its heading, and
    "No areas defined." in its place when the rendering is empty. *)
Theorem get_areas_text issued r (rendered : string) :
  upstream issued (request_to HA_API_BASE token "/template"
                     (template_options areas_template)) = Returned r ->
  Spec.success_status (status r) -> ~ Spec.declares_json r ->
  text r = Returned rendered ->
  fst (ha_get_areas token upstream issued)
  = Returned ("Areas:" ++ LF ++ LF
                ++ if decide (rendered = "") then "No areas defined." else rendered).
Proof.
  intros Hup Hst%ok_success Hct Htext.
  unfold ha_get_areas, bind. rewrite haApiRequest_run, Hup. simpl.
  rewrite Hst. simpl. unfold Spec.declares_json in Hct.
  destruct (includes _ _); [done|]. unfold as_text. rewrite Htext. simpl.
  unfold or_else. simpl. case_decide as Hr.
  - by rewrite Hr.
  - by destruct (String.eqb_spec rendered "").
Qed.

(** X17. [get_devices] returns the trimmed rendering after its label, and
    "No devices found." in its place when nothing is left after
    trimming; an empty area id gets the label of an omitted one. *)
Theorem get_devices_text area_id issued r (rendered : string) :
  upstream issued (request_to HA_API_BASE token "/template"
                     (template_options (devices_template area_id))) = Returned r ->
  Spec.success_status (status r) -> ~ Spec.declares_json r ->
  text r = Returned rendered ->
  fst (ha_get_devices token upstream trim area_id issued)
  = Returned (match area_id with
              | Some a => if decide (a = "") then "Devices"
                          else "Devices in area '" ++ a ++ "'"
              | None => "Devices"
              end ++ ":" ++ LF ++ LF
                ++ if decide (trim rendered = "") then "No devices found."
                   else trim rendered).
Proof.
  intros Hup Hst%ok_success Hct Htext.
  unfold ha_get_devices, bind. rewrite haApiRequest_run, Hup. simpl.
  rewrite Hst. simpl. unfold Spec.declares_json in Hct.
  destruct (includes _ _); [done|]. unfold as_text. rewrite Htext. simpl.
  unfold ret. do 2 f_equal.
  assert (devices_label area_id
          = match area_id with
            | Some a => if decide (a = "") then "Devices"
                        else "Devices in area '" ++ a ++ "'"
            | None => "Devices"
            end) as ->.
  { unfold devices_label, area_given, truthy_str. destruct area_id as [a|]; [|done].
    case_decide as Ha; [by rewrite Ha|]. by destruct (String.eqb_spec a ""). }
  do 4 f_equal. unfold or_else. simpl. case_decide as Hr.
  - by rewrite Hr.
  - by destruct (String.eqb_spec (trim rendered) "").
Qed.

(** An empty area id selects what an omitted one selects. *)
Theorem get_devices_empty_area issued :
  ha_get_devices token upstream trim (Some "") issued
  = ha_get_devices token upstream trim None issued.
Proof. reflexivity. Qed.

(** X20. When [lines] is at least the number of entries of the split
    log, [get_logs] returns the whole log text unchanged under its
    heading. *)
Theorem get_logs_whole_log (lines : Z) (logs : string) issued r :
  upstream issued (request_to SUPERVISOR_API_BASE token "/core/logs" raw_options)
  = Returned r ->
  Spec.success_status (status r) -> text r = Returned logs ->
  Z.of_nat (length (split "010"%char logs)) <= lines ->
  ha_get_logs token upstream lines issued
  = (Returned ("Home Assistant logs (last " ++ number_to_string lines ++ " lines):"
                 ++ LF ++ LF ++ logs),
     (issued ++ [request_to SUPERVISOR_API_BASE token "/core/logs" raw_options])%list).
Proof.
  intros Hup Hst%ok_success Htext Hlines.
  unfold ha_get_logs, bind. rewrite supervisorApiRequest_run, Hup. simpl.
  rewrite Hst. simpl. unfold as_text. rewrite Htext.
  unfold ret, logs_text, last_lines.
  assert (slice (split "010"%char logs) (- lines) None = split "010"%char logs) as ->.
  { rename Hlines into Hle.
    pose proof (split_nonempty "010"%char logs) as Hne.
    destruct (split "010"%char logs) as [|x l] eqn:Hs; [done|].
    rewrite slice_neg_last by (simpl in Hle; lia).
    unfold Spec.last_entries.
    replace (length (x :: l) - Z.to_nat lines)%nat with 0%nat by lia. done. }
  assert (join LF (split "010"%char logs) = logs) as ->
    by apply (join_split "010"%char).
  done.
Qed.

End HandlersMore.

(** X21. For a log text that ends with a newline the last entry is the
    empty text after that newline: [lines >= 1] yields the last
    [lines - 1] entries before it, followed by an empty entry. *)
Theorem get_logs_trailing_newline (logs : string) (lines : Z) :
  1 <= lines ->
  last_lines (logs ++ LF) lines
  = (Spec.last_entries (Z.to_nat lines - 1) (split "010"%char logs) ++ [""])%list.
Proof.
  intros Hn. unfold last_lines, LF. rewrite split_snoc, slice_neg_last by done.
  unfold Spec.last_entries. rewrite length_app. simpl.
  rewrite drop_app_le by lia. do 2 f_equal. lia.
Qed.

(** X19. [get_history] reports "No history found" exactly when the
    result is null, has no series or has an empty first series;
    otherwise only the first series is formatted, whatever follows it. *)
Theorem history_text_first_series (entity_id : string) (hours : Z)
    (result : option (list (list Change))) :
  let no_history :=
    "No history found for " ++ entity_id ++ " in the last " ++ pretty hours ++ " hours." in
  (history_text entity_id hours result = no_history
   <-> result = None \/ result = Some [] \/ exists rest, result = Some ([] :: rest))
  /\ (forall changes rest, result = Some (changes :: rest) ->
        history_text entity_id hours result
        = history_text entity_id hours (Some [changes])).
Proof.
  intros no_history. split.
  - destruct result as [[|[|c changes] rest]|]; simpl.
    + split; [intros _; right; by left | done].
    + split; [intros _; right; right; by eexists | done].
    + split; [discriminate|]. by intros [?|[?|[? ?]]].
    + split; [by left | done].
  - intros changes rest ->. by destruct changes.
Qed.

(* ------------------------------------------------------------------ *)
(** *** The handlers on concrete upstreams *)

Lemma reload_declared_posts_witness :
  exists endpoint req,
    ("core", endpoint) ∈ RELOAD_MAP
    /\ snd (ha_reload_config None (Fixture.always (Fixture.plain 200 "[]")) "core" [])
       = [req]
    /\ method req = "POST"
    /\ url req = HA_API_BASE ++ "/services/" ++ endpoint
    /\ body_json req = None
    /\ fst (ha_reload_config None (Fixture.always (Fixture.plain 200 "[]")) "core" [])
       = match fst (haApiRequest None (Fixture.always (Fixture.plain 200 "[]"))
                      ("/services/" ++ endpoint) post_options []) with
         | Returned _ => Returned ("Reloaded '" ++ "core" ++ "' configuration successfully.")
         | Thrown e => Thrown e
         end.
Proof.
  apply (reload_declared_posts None (Fixture.always (Fixture.plain 200 "[]")) "core" []).
  apply own_property_keys. by eexists.
Defined.

Lemma reload_unknown_witness :
  ha_reload_config None (Fixture.always (Fixture.plain 200 "[]")) "light" []
  = (Returned (unknown_domain "light"), []).
Proof.
  apply (reload_unknown None (Fixture.always (Fixture.plain 200 "[]")) "light" []);
    [|reflexivity].
  intros Hkey%own_property_keys. vm_compute in Hkey. by destruct Hkey.
Defined.

Lemma call_service_changed_witness :
  fst (ha_call_service None
         (Fixture.always (Fixture.as_json 200 "[{},{}]" Sample.two_changed))
         "light" "turn_on" (Some Fixture.kitchen) (Some Fixture.brightness) [])
  = Returned "Service light.turn_on called successfully. 2 entity state(s) changed.".
Proof.
  destruct (call_service_changed None
              (Fixture.always (Fixture.as_json 200 "[{},{}]" Sample.two_changed))
              "light" "turn_on" (Some Fixture.kitchen) (Some Fixture.brightness) []
              Sample.two_changed) as [Harr _]; [by vm_compute|].
  apply (Harr [JObj ∅; JObj ∅]). reflexivity.
Defined.

Lemma get_areas_text_witness :
  fst (ha_get_areas None (Fixture.always (Fixture.plain 200 "")) [])
  = Returned ("Areas:" ++ LF ++ LF ++ "No areas defined.").
Proof.
  apply (get_areas_text None (Fixture.always (Fixture.plain 200 "")) []
           (Fixture.plain 200 "") "");
    [reflexivity | unfold Spec.success_status; simpl; lia | by vm_compute | reflexivity].
Defined.

Lemma get_devices_text_witness :
  fst (ha_get_devices None (Fixture.always (Fixture.plain 200 "")) Sample.keep
         (Some "") [])
  = Returned ("Devices" ++ ":" ++ LF ++ LF ++ "No devices found.").
Proof.
  apply (get_devices_text None (Fixture.always (Fixture.plain 200 "")) Sample.keep
           (Some "") [] (Fixture.plain 200 "") "");
    [reflexivity | unfold Spec.success_status; simpl; lia | by vm_compute | reflexivity].
Defined.


Lemma get_logs_whole_log_witness :
  ha_get_logs None (Fixture.always (Fixture.plain 200 Fixture.log_text)) 100 []
  = (Returned ("Home Assistant logs (last 100 lines):" ++ LF ++ LF ++ Fixture.log_text),
     [request_to SUPERVISOR_API_BASE None "/core/logs" raw_options]).
Proof.
  apply (get_logs_whole_log None (Fixture.always (Fixture.plain 200 Fixture.log_text))
           100 Fixture.log_text [] (Fixture.plain 200 Fixture.log_text));
    [reflexivity | unfold Spec.success_status; simpl; lia | reflexivity |].
  vm_compute. discriminate.
Defined.

Lemma get_logs_trailing_newline_witness :
  last_lines (Fixture.log_text ++ LF) 2 = ["c"; ""].
Proof.
  apply (get_logs_trailing_newline Fixture.log_text 2). lia.
Defined.
